(** * evemu-play: device creation, hold loop and replay dispatch

    A shallow embedding of [tools/evemu-play.c].  The program is a thin
    driver around the evemu library and libc: every library call and system
    call is an external [Call], answered by an environment [Env]; the
    program itself is written in a small state monad that threads [errno]
    and the ordered log of the calls made so far.

    Conventions:
    - the environment is any function from the log so far and the current
      [errno] to an answer and a new [errno]; along one run the logs are
      all different, so every sequence of answers is some environment;
    - results of calls are taken to lie in the range of the C type the
      call returns; the one store into a narrower type, of the [ssize_t]
      of [read] into [int ret], is written out;
    - the one place where the order of evaluation of the arguments of a
      call can be observed, in [open_evemu_device], is left to the
      environment;
    - format strings are kept as they are written in the source, escapes
      included; the [%m] of glibc is left to the environment, which sees
      [errno];
    - the only loop, in [open_and_hold_device], takes one unit of fuel per
      [read]; a run that exhausts its fuel has result [None] and keeps the
      world it reached. *)

From Stdlib Require Import ZArith List String Ascii Bool Lia DecimalString.
From Stdlib Require DecimalFacts.
Import ListNotations.
Open Scope string_scope.
Open Scope list_scope.
Open Scope Z_scope.

(** ** Values *)

(** A non-null [struct evemu_device *]; a possibly-null pointer is an
    [option Dev]. *)
Definition Dev := nat.

(** [FILE *] streams: the three standard ones and those returned by
    [fopen]/[fdopen]. *)
Inductive Stream : Type :=
| Stdin
| Stdout
| Stderr
| Fp (n : nat).

(** Arguments handed to a printf-style call after the format. *)
Inductive Arg : Type :=
| AInt (z : Z)
| AStr (s : string).

(** Constants of the system headers (Linux values). *)
Definition O_RDWR : Z := 2.
Definition SEEK_SET : Z := 0.
Definition ENOMEM : Z := 12.
Definition S_IFMT : Z := 61440.   (* 0170000 *)
Definition S_IFCHR : Z := 8192.   (* 0020000 *)
Definition SCHED_FIFO : Z := 1.
Definition MCL_CURRENT : Z := 1.
Definition MCL_FUTURE : Z := 2.
Definition sizeof_cpu_set_t : Z := 128.

Definition S_ISCHR (st_mode : Z) : bool :=
  Z.land st_mode S_IFMT =? S_IFCHR.

(** The bounds of [int]; [getpid] returns a [pid_t], which is an [int]. *)
Definition INT_MIN : Z := - 2 ^ 31.
Definition INT_MAX : Z := 2 ^ 31 - 1.

(** The value an [int] takes when a [ssize_t] is stored in it: unchanged
    within the range of [int], reduced modulo [2 ^ 32] outside of it (the
    conversion gcc defines). *)
Definition int_of_ssize_t (z : Z) : Z := (z + 2 ^ 31) mod 2 ^ 32 - 2 ^ 31.

(** [CPU_ZERO] and [CPU_SET] on a mask kept as a bit vector. *)
Definition CPU_ZERO : Z := 0.
Definition CPU_SET (cpu : Z) (set : Z) : Z := Z.lor set (Z.shiftl 1 cpu).

(** ** External calls

    The index is the C result type: a pointer that may be null is an
    [option], [read] delivers its count together with the bytes stored in
    the buffer, [fstat] its status together with [st_mode]. *)
Inductive Call : Type -> Type :=
(* libevemu *)
| Evemu_new : Call (option Dev)                       (* evemu_new(NULL) *)
| Evemu_read (dev : Dev) (fp : Stream) : Call Z
| Evemu_get_name (dev : Dev) : Call string
| Evemu_set_name (dev : Dev) (name : string) : Call unit
| Evemu_get_devnode (dev : Dev) : Call (option string)
| Evemu_create_managed (dev : Dev) : Call Z
| Evemu_destroy (dev : Dev) : Call unit
| Evemu_delete (dev : Dev) : Call unit
| Evemu_play (fp : Stream) (fd : Z) (start_offset_us : Z) : Call Z
(* system calls *)
| Sys_open (path : string) (flags : Z) : Call Z
| Sys_read (fd : Z) (count : Z) : Call (Z * list Byte.byte)
| Sys_close (fd : Z) : Call Z
| Sys_fstat (fd : Z) : Call (Z * Z)
| Getpid : Call Z
| Sched_setaffinity (pid : Z) (cpusetsize : Z) (mask : Z) : Call Z
| Sched_setscheduler (pid : Z) (policy : Z) (sched_priority : Z) : Call Z
| Mlockall (flags : Z) : Call Z
(* stdio and libc *)
| Fopen (path : string) (mode : string) : Call (option Stream)
| Fdopen (fd : Z) (mode : string) : Call (option Stream)
| Fclose (fp : Stream) : Call Z
| Fseek (fp : Stream) (offset : Z) (whence : Z) : Call Z
| Fflush (fp : Stream) : Call Z
| Fprintf (fp : Stream) (format : string) (args : list Arg) : Call Z
| Perror (s : string) : Call unit
| Strerror (errnum : Z) : Call string
| Atol (nptr : string) : Call Z
(* not a call: whether, among the arguments of the [fprintf] in
   [open_evemu_device], [strerror(errno)] is evaluated before [errno] *)
| Strerror_evaluated_first : Call bool.

(** One entry of the call log. *)
Inductive Event : Type :=
| Ev {R : Type} (c : Call R).

(** The environment answers a call from the log so far and the current
    [errno], with the result and the [errno] the call leaves behind. *)
Definition Env : Type := forall R : Type, Call R -> list Event -> Z -> R * Z.

(** ** Program state and monad *)

Record World : Type := mkWorld {
  errno : Z;
  trace : list Event
}.

(** A computation returns [None] when its loop budget ran out; the world
    reached so far is kept in both cases. *)
Definition M (A : Type) : Type := World -> option A * World.

Definition ret {A : Type} (a : A) : M A := fun w => (Some a, w).

Definition bind {A B : Type} (m : M A) (f : A -> M B) : M B :=
  fun w => match m w with
           | (Some a, w') => f a w'
           | (None, w') => (None, w')
           end.

Definition out_of_fuel {A : Type} : M A := fun w => (None, w).

Notation "x <- m ;; k" := (bind m (fun x => k))
  (at level 61, m at next level, right associativity).
Notation "m ;;; k" := (bind m (fun _ => k))
  (at level 61, right associativity).

Definition get_errno : M Z := fun w => (Some (errno w), w).

Definition set_errno (e : Z) : M unit :=
  fun w => (Some tt, mkWorld e (trace w)).

Section Program.

Variable env : Env.

Definition call {R : Type} (c : Call R) : M R :=
  fun w =>
    let '(r, e) := env R c (trace w) (errno w) in
    (Some r, mkWorld e (trace w ++ [Ev c])).

(** C leaves unspecified in which order the arguments of one call are
    evaluated.  Where that order can be observed the choice is the
    environment's; it is not a call, changes nothing and is not logged. *)
Definition unspecified_order (c : Call bool) : M bool :=
  fun w => (Some (fst (env bool c (trace w) (errno w))), w).

Definition fprintf (fp : Stream) (format : string) (args : list Arg) : M Z :=
  call (Fprintf fp format args).

Definition printf (format : string) (args : list Arg) : M Z :=
  fprintf Stdout format args.

(** [argv[i]]. *)
Definition arg (argv : list string) (i : nat) : string := nth i argv ""%string.

(** What [%d] prints for an [int]. *)
Definition format_d (z : Z) : string := NilZero.string_of_int (Z.to_int z).

(** [sprintf(name, "evemu-%d", pid)]: at most 17 characters, within
    [char name[64]]. *)
Definition sprintf_evemu_d (pid : Z) : string :=
  ("evemu-" ++ format_d pid)%string.

(** *** open_evemu_device *)
Definition open_evemu_device (dev : Dev) : M Z :=
  device_node <- call (Evemu_get_devnode dev) ;;
  match device_node with
  | None =>
      fprintf Stderr "can not determine device node\n" [] ;;;
      ret (-1)
  | Some device_node =>
      fd <- call (Sys_open device_node O_RDWR) ;;
      if fd <? 0 then
        (* [fprintf(stderr, ..., errno, device_node, strerror(errno))]:
           the argument of [strerror] is read before it is called; the
           [errno] printed by [%d] is read before or after that call *)
        strerror_first <- unspecified_order Strerror_evaluated_first ;;
        if strerror_first then
          msg <- (e <- get_errno ;; call (Strerror e)) ;;
          e <- get_errno ;;
          fprintf Stderr "error %d opening %s: %s\n"
                  [AInt e; AStr device_node; AStr msg] ;;;
          ret (-1)
        else
          e <- get_errno ;;
          msg <- (e <- get_errno ;; call (Strerror e)) ;;
          fprintf Stderr "error %d opening %s: %s\n"
                  [AInt e; AStr device_node; AStr msg] ;;;
          ret (-1)
      else
        name <- call (Evemu_get_name dev) ;;
        fprintf Stdout "%s: %s\n" [AStr name; AStr device_node] ;;;
        call (Fflush Stdout) ;;;
        ret fd
  end.

(** *** open_and_hold_device

    [while ((ret = read(fd, data, sizeof(data))) > 0) ;] with one unit of
    fuel per [read]; the [ssize_t] that [read] returns is stored in
    [int ret] before it is tested; the bytes delivered into [data] are
    never looked at. *)
Fixpoint hold_loop (fuel : nat) (fd : Z) : M unit :=
  match fuel with
  | O => out_of_fuel
  | S fuel' =>
      r <- call (Sys_read fd 256) ;;
      let ret_ := int_of_ssize_t (fst r) in
      if ret_ >? 0 then hold_loop fuel' fd else ret tt
  end.

Definition open_and_hold_device (fuel : nat) (dev : Dev) : M unit :=
  fd <- open_evemu_device dev ;;
  if fd <? 0 then ret tt
  else
    hold_loop fuel fd ;;;
    call (Sys_close fd) ;;;
    ret tt.

(** *** create_device

    The code after the label [out]: the device is destroyed, with [errno]
    saved around the call, when [ret] is nonzero and [dev] is not null. *)
Definition create_device_out (r : Z) (dev : option Dev) : M (option Dev) :=
  match dev with
  | Some d =>
      if negb (r =? 0) then
        saved_errno <- get_errno ;;
        call (Evemu_destroy d) ;;;
        set_errno saved_errno ;;;
        ret None
      else ret (Some d)
  | None => ret None
  end.

Definition create_device (fp : Stream) : M (option Dev) :=
  dev <- call Evemu_new ;;
  match dev with
  | None => create_device_out (- ENOMEM) None
  | Some d =>
      r <- call (Evemu_read d fp) ;;
      if r <=? 0 then create_device_out r (Some d)
      else
        name <- call (Evemu_get_name d) ;;
        (if (String.length name =? 0)%nat then
           pid <- call Getpid ;;
           call (Evemu_set_name d (sprintf_evemu_d pid))
         else ret tt) ;;;
        r <- call (Evemu_create_managed d) ;;
        (* [if (ret < 0) goto out;] and the fall-through both reach [out] *)
        create_device_out r (Some d)
  end.

(** *** evemu_device *)
Definition evemu_device (fuel : nat) (fp : Stream) : M Z :=
  dev <- create_device fp ;;
  match dev with
  | None => ret (-1)
  | Some d =>
      open_and_hold_device fuel d ;;;
      call (Evemu_delete d) ;;;
      ret 0
  end.

(** *** device *)
Definition device (fuel : nat) (argc : Z) (argv : list string) : M Z :=
  if argc <? 2 then
    fprintf Stderr "Usage: %s <dev.prop>\n" [AStr (arg argv 0)] ;;;
    ret (-1)
  else
    fp <- call (Fopen (arg argv 1) "r") ;;
    match fp with
    | None =>
        fprintf Stderr "error: could not open file (%m)\n" [] ;;;
        ret (-1)
    | Some fp =>
        r <- evemu_device fuel fp ;;
        if r <=? 0 then
          fprintf Stderr "error: could not create device: %d\n" [AInt r] ;;;
          ret (-1)
        else
          call (Fclose fp) ;;;
          ret 0
    end.

(** *** play_from_stdin *)
Definition play_from_stdin (fd : Z) : M Z :=
  let start_offset_us := 0 in
  r <- call (Evemu_play Stdin fd start_offset_us) ;;
  (if negb (r =? 0) then
     fprintf Stderr "error: could not replay device\n" [] ;;; ret tt
   else ret tt) ;;;
  ret r.

(** *** play_from_file

    The code after the label [out]. *)
Definition play_from_file_out (dev : Dev) (fp : Stream) (fd : Z) : M Z :=
  call (Evemu_delete dev) ;;;
  call (Fclose fp) ;;;
  call (Sys_close fd) ;;;
  ret 0.

Definition play_from_file (recording_fd : Z) (start_offset_us : Z) : M Z :=
  fp <- call (Fdopen recording_fd "r") ;;
  match fp with
  | None =>
      fprintf Stderr "error: could not open file (%m)\n" [] ;;;
      ret (-1)
  | Some fp =>
      dev <- create_device fp ;;
      match dev with
      | None =>
          fprintf Stderr "error: could not create device: %m\n" [] ;;;
          call (Fclose fp) ;;;
          ret (-1)
      | Some dev =>
          fd <- open_evemu_device dev ;;
          if fd <? 0 then play_from_file_out dev fp fd
          else
            printf "\n" [] ;;;
            printf "Starting Evemu Replay TEST.. FOR ME NEWE" [] ;;;
            call (Fflush Stdout) ;;;
            call (Fseek fp 0 SEEK_SET) ;;;
            r <- call (Evemu_play fp fd start_offset_us) ;;
            (if negb (r =? 0) then
               fprintf Stderr "error: could not replay device\n" [] ;;; ret tt
             else ret tt) ;;;
            play_from_file_out dev fp fd
      end
  end.

(** *** play

    The start offset: [long start_offset_us = 0;] and the block under
    [if (argc == 3)]. *)
Definition start_offset (argc : Z) (argv : list string) : M Z :=
  if argc =? 3 then
    off <- call (Atol (arg argv 2)) ;;
    printf "StartOffset Replay: %ld" [AInt off] ;;;
    call (Fflush Stdout) ;;;
    ret off
  else ret 0.

Definition play (argc : Z) (argv : list string) : M Z :=
  if (argc <? 2) || (argc >? 3) then
    fprintf Stderr "Usage: %s <device>|<recording>\n" [AStr (arg argv 0)] ;;;
    fprintf Stderr "\n" [] ;;;
    fprintf Stderr
      "If the argument is an input event node,\nevent data is read from standard input.\n" [] ;;;
    fprintf Stderr
      "If the argument is an evemu recording,\nthe device is created and the event data isread from the same device.\n" [] ;;;
    ret (-1)
  else
    fd <- call (Sys_open (arg argv 1) O_RDWR) ;;
    if fd <? 0 then
      fprintf Stderr "error: could not open file or device (%m)\n" [] ;;;
      ret (-1)
    else
      st <- call (Sys_fstat fd) ;;
      if fst st =? -1 then
        fprintf Stderr "error: failed to look at file (%m)\n" [] ;;;
        ret (-1)
      else
        start_offset_us <- start_offset argc argv ;;
        (if S_ISCHR (snd st) then play_from_stdin fd
         else play_from_file fd start_offset_us) ;;;
        call (Sys_close fd) ;;;
        ret 0.

(** *** setup_realtime_cpu *)
Definition setup_realtime_cpu : M unit :=
  let set := CPU_SET 3 CPU_ZERO in
  r <- call (Sched_setaffinity 0 sizeof_cpu_set_t set) ;;
  (if negb (r =? 0) then call (Perror "sched_setaffinity failed")
   else printf "✅ CPU pinned to core 3\n" [] ;;; ret tt) ;;;
  let sched_priority := 99 in
  r <- call (Sched_setscheduler 0 SCHED_FIFO sched_priority) ;;
  (if negb (r =? 0) then call (Perror "sched_setscheduler failed (are you root?)")
   else printf "✅ Real-time scheduler enabled (SCHED_FIFO)\n" [] ;;; ret tt) ;;;
  r <- call (Mlockall (Z.lor MCL_CURRENT MCL_FUTURE)) ;;
  (if negb (r =? 0) then call (Perror "mlockall failed")
   else printf "✅ Memory locked (no paging)\n" [] ;;; ret tt).

(** *** main

    [prgm_name] is glibc's [program_invocation_short_name]. *)
Definition main (fuel : nat) (prgm_name : option string)
    (argc : Z) (argv : list string) : M Z :=
  setup_realtime_cpu ;;;
  match prgm_name with
  | Some n =>
      if (n =? "evemu-device")%string || (n =? "lt-evemu-device")%string
      then device fuel argc argv
      else play argc argv
  | None => play argc argv
  end.

End Program.

(** ** Observations on the call log *)

(** Calls by which a new device comes into being: allocating the handle and
    registering it with the kernel. *)
Definition is_device_creation_call (e : Event) : bool :=
  match e with
  | Ev c =>
      match c with
      | Evemu_new => true
      | Evemu_create_managed _ => true
      | _ => false
      end
  end.

(** The three calls of the scheduling tuner. *)
Definition is_tuner_call (e : Event) : bool :=
  match e with
  | Ev c =>
      match c with
      | Sched_setaffinity _ _ _ => true
      | Sched_setscheduler _ _ _ => true
      | Mlockall _ => true
      | _ => false
      end
  end.

Definition is_destroy_call (e : Event) : bool :=
  match e with
  | Ev c =>
      match c with
      | Evemu_destroy _ => true
      | _ => false
      end
  end.

Definition is_read_call (e : Event) : bool :=
  match e with
  | Ev c =>
      match c with
      | Sys_read _ _ => true
      | _ => false
      end
  end.

(** The world in which the [n]-th further [read] on [fd] is issued. *)
Fixpoint after_reads (env : Env) (fd : Z) (n : nat) (w : World) : World :=
  match n with
  | O => w
  | S n' => after_reads env fd n' (snd (call env (Sys_read fd 256) w))
  end.

(** The count that [read] on [fd] returns when issued in [w]. *)
Definition read_count (env : Env) (fd : Z) (w : World) : Z :=
  fst (fst (env _ (Sys_read fd 256) (trace w) (errno w))).

(** What a tuner step leaves in the log after its call returned [r]. *)
Definition step_report (r : Z) (failure success : string) : Event :=
  if r =? 0 then Ev (Fprintf Stdout success []) else Ev (Perror failure).

(** What [play_from_file] logs between opening the node and the replay. *)
Definition replay_prologue (fp : Stream) : list Event :=
  [Ev (Fprintf Stdout "\n" []);
   Ev (Fprintf Stdout "Starting Evemu Replay TEST.. FOR ME NEWE" []);
   Ev (Fflush Stdout);
   Ev (Fseek fp 0 SEEK_SET)].

(** What both replay modes log after [evemu_play] returned [r]. *)
Definition replay_report (r : Z) : list Event :=
  if r =? 0 then []
  else [Ev (Fprintf Stderr "error: could not replay device\n" [])].

(** What [play] logs for the start offset [off]. *)
Definition offset_log (argc : Z) (argv : list string) (off : Z) : list Event :=
  if argc =? 3 then
    [Ev (Atol (arg argv 2));
     Ev (Fprintf Stdout "StartOffset Replay: %ld" [AInt off]);
     Ev (Fflush Stdout)]
  else [].

(** The calls logged on the way from [w] to [w']. *)
Definition log_since (w w' : World) : list Event :=
  skipn (List.length (trace w)) (trace w').

(** [m] only adds to the log, and only events that satisfy [P]; this holds
    whether or not [m] returns. *)
Definition emits (P : Event -> Prop) {A : Type} (m : M A) : Prop :=
  forall w : World,
    exists l : list Event, trace (snd (m w)) = trace w ++ l /\ Forall P l.

Definition not_tuner (e : Event) : Prop := is_tuner_call e = false.

(** ** Scripted environments

    A concrete environment built from a table of answers.  A failing call
    leaves its own error code in [errno]; [evemu_destroy] closes a
    descriptor on the way and leaves [EBADF] behind; the reads of the hold
    loop are answered from a list, then with end of file. *)
Record Script : Type := mkScript {
  sc_new : option Dev;
  sc_read : Z;
  sc_name : string;
  sc_devnode : option string;
  sc_managed : Z;
  sc_play : Z;
  sc_open_target : Z;
  sc_open_node : Z;
  sc_fstat : Z * Z;
  sc_fopen : option Stream;
  sc_fdopen : option Stream;
  sc_reads : list Z;
  sc_pid : Z;
  sc_tuner : Z * Z * Z
}.

Definition EBADF : Z := 9.
Definition EINVAL : Z := 22.
Definition ENOENT : Z := 2.
Definition EPERM : Z := 1.
Definition S_IFREG : Z := 32768.  (* 0100000 *)

Definition fails (r : Z) (code e : Z) : Z := if r <? 0 then code else e.

Definition scripted (s : Script) : Env :=
  fun R c t e =>
    match c in Call R return R * Z with
    | Evemu_new =>
        (sc_new s, match sc_new s with None => ENOMEM | Some _ => e end)
    | Evemu_read _ _ => (sc_read s, if sc_read s <=? 0 then EINVAL else e)
    | Evemu_get_name _ => (sc_name s, e)
    | Evemu_set_name _ _ => (tt, e)
    | Evemu_get_devnode _ => (sc_devnode s, e)
    | Evemu_create_managed _ => (sc_managed s, fails (sc_managed s) EPERM e)
    | Evemu_destroy _ => (tt, EBADF)
    | Evemu_delete _ => (tt, e)
    | Evemu_play _ _ _ => (sc_play s, e)
    | Sys_open path _ =>
        if (path =? "/dev/input/event7")%string
        then (sc_open_node s, fails (sc_open_node s) ENOENT e)
        else (sc_open_target s, fails (sc_open_target s) ENOENT e)
    | Sys_read _ _ =>
        (nth (List.length (filter is_read_call t)) (sc_reads s) 0, [], e)
    | Sys_close fd => if fd <? 0 then (-1, EBADF) else (0, e)
    | Sys_fstat _ => (sc_fstat s, e)
    | Getpid => (sc_pid s, e)
    | Sched_setaffinity _ _ _ =>
        (fst (fst (sc_tuner s)), fails (fst (fst (sc_tuner s))) EINVAL e)
    | Sched_setscheduler _ _ _ =>
        (snd (fst (sc_tuner s)), fails (snd (fst (sc_tuner s))) EPERM e)
    | Mlockall _ => (snd (sc_tuner s), fails (snd (sc_tuner s)) ENOMEM e)
    | Fopen _ _ =>
        (sc_fopen s, match sc_fopen s with None => ENOENT | Some _ => e end)
    | Fdopen _ _ =>
        (sc_fdopen s, match sc_fdopen s with None => ENOMEM | Some _ => e end)
    | Fclose _ => (0, e)
    | Fseek _ _ _ => (0, e)
    | Fflush _ => (0, e)
    | Fprintf _ _ _ => (0, e)
    | Perror _ => (tt, e)
    | Strerror _ => ("error"%string, e)
    | Atol _ => (2000, e)
    | Strerror_evaluated_first => (true, e)
    end.

(** A script from the answers that vary between scenarios: what
    [evemu_read] returns, the name in the description, what [evemu_play]
    returns, the target's [st_mode] and what [fdopen] returns.  Everything
    else succeeds: the device registers as [/dev/input/event7], and the
    hold loop sees three reads and then end of file. *)
Definition script (read : Z) (name : string) (play : Z) (st_mode : Z)
    (fdopen : option Stream) : Script :=
  {| sc_new := Some 1%nat;
     sc_read := read;
     sc_name := name;
     sc_devnode := Some "/dev/input/event7"%string;
     sc_managed := 0;
     sc_play := play;
     sc_open_target := 3;
     sc_open_node := 4;
     sc_fstat := (0, st_mode);
     sc_fopen := Some (Fp 0);
     sc_fdopen := fdopen;
     sc_reads := [24; 48; 24];
     sc_pid := 4242;
     sc_tuner := (0, 0, 0) |}.

Definition all_good : Script := script 1 "vtest" 0 S_IFREG (Some (Fp 0)).
Definition read_returns_zero : Script := script 0 "" 0 S_IFREG (Some (Fp 0)).
Definition nameless : Script := script 1 "" 0 S_IFREG (Some (Fp 0)).
Definition replay_fails : Script := script 1 "vtest" (-1) S_IFREG (Some (Fp 0)).
Definition live_replay_fails : Script :=
  script 1 "vtest" (-1) S_IFCHR (Some (Fp 0)).
Definition fdopen_fails : Script := script 1 "vtest" 0 S_IFREG None.

Definition w0 : World := mkWorld 0 [].

(** Two command lines of the replay command, and the worlds a run passes
    through up to the mode test: the target opened as descriptor 3,
    [fstat], and the start offset 2000 parsed and echoed. *)
Definition live_argv : list string :=
  ["evemu-play"; "/dev/input/event5"; "2000"]%string.
Definition file_argv : list string :=
  ["evemu-play"; "rec.evemu"; "2000"]%string.

Definition opened (argv : list string) : World :=
  mkWorld 0 [Ev (Sys_open (arg argv 1) O_RDWR)].
Definition looked_at (argv : list string) : World :=
  mkWorld 0 (trace (opened argv) ++ [Ev (Sys_fstat 3)]).
Definition at_mode_test (argv : list string) : World :=
  mkWorld 0 (trace (looked_at argv) ++ offset_log 3 argv 2000).

(** The worlds of a file-mode run from there to the result of the replay:
    the stream, the device, its node opened as descriptor 4, the banner
    and the rewind, the replay. *)
Definition wrapped : World :=
  mkWorld 0 (trace (at_mode_test file_argv) ++ [Ev (Fdopen 3 "r")]).
Definition created : World :=
  mkWorld 0 (trace wrapped
             ++ [Ev Evemu_new; Ev (Evemu_read 1%nat (Fp 0));
                 Ev (Evemu_get_name 1%nat); Ev (Evemu_create_managed 1%nat)]).
Definition node_opened : World :=
  mkWorld 0 (trace created
             ++ [Ev (Evemu_get_devnode 1%nat);
                 Ev (Sys_open "/dev/input/event7" O_RDWR);
                 Ev (Evemu_get_name 1%nat);
                 Ev (Fprintf Stdout "%s: %s\n"
                       [AStr "vtest"; AStr "/dev/input/event7"]);
                 Ev (Fflush Stdout)]).
Definition rewound : World :=
  mkWorld 0 (trace node_opened ++ replay_prologue (Fp 0)).
Definition replayed : World :=
  mkWorld 0 (trace rewound ++ [Ev (Evemu_play (Fp 0) 4 2000)]).

(** ** Further observations and scenarios *)

Definition is_stderr_call (e : Event) : bool :=
  match e with
  | Ev c =>
      match c with
      | Fprintf Stderr _ _ => true
      | Perror _ => true
      | _ => false
      end
  end.

Definition is_fclose_call (e : Event) : bool :=
  match e with
  | Ev c =>
      match c with
      | Fclose _ => true
      | _ => false
      end
  end.

Definition not_fclose (e : Event) : Prop := is_fclose_call e = false.

(** [S_IFBLK], [S_IFDIR] of the system headers. *)
Definition S_IFBLK : Z := 24576.  (* 0060000 *)
Definition S_IFDIR : Z := 16384.  (* 0040000 *)

(** Environments that differ from a given one in the answer to one call. *)
Definition with_devnode (node : option string) (base : Env) : Env :=
  fun R c =>
    match c in Call R return list Event -> Z -> R * Z with
    | Evemu_get_devnode _ => fun _ e => (node, e)
    | c' => base _ c'
    end.

Definition with_open (path : string) (fd code : Z) (base : Env) : Env :=
  fun R c =>
    match c in Call R return list Event -> Z -> R * Z with
    | Sys_open p flags =>
        fun t e =>
          if (p =? path)%string then (fd, if fd <? 0 then code else e)
          else base _ (Sys_open p flags) t e
    | c' => base _ c'
    end.

Definition with_new (dev : option Dev) (base : Env) : Env :=
  fun R c =>
    match c in Call R return list Event -> Z -> R * Z with
    | Evemu_new =>
        fun _ e => (dev, match dev with None => ENOMEM | Some _ => e end)
    | c' => base _ c'
    end.

Definition with_read (r code : Z) (base : Env) : Env :=
  fun R c =>
    match c in Call R return list Event -> Z -> R * Z with
    | Evemu_read _ _ => fun _ e => (r, if r <=? 0 then code else e)
    | c' => base _ c'
    end.

Definition with_managed (r code : Z) (base : Env) : Env :=
  fun R c =>
    match c in Call R return list Event -> Z -> R * Z with
    | Evemu_create_managed _ => fun _ e => (r, if r =? 0 then e else code)
    | c' => base _ c'
    end.

Definition with_fopen (fp : option Stream) (base : Env) : Env :=
  fun R c =>
    match c in Call R return list Event -> Z -> R * Z with
    | Fopen _ _ =>
        fun _ e => (fp, match fp with None => ENOENT | Some _ => e end)
    | c' => base _ c'
    end.

Definition with_fstat (r mode code : Z) (base : Env) : Env :=
  fun R c =>
    match c in Call R return list Event -> Z -> R * Z with
    | Sys_fstat _ => fun _ e => ((r, mode), if r =? 0 then e else code)
    | c' => base _ c'
    end.

Definition device_argv : list string := ["evemu-device"; "dev.prop"]%string.

(** ** Stepping through the monad *)

Lemma bind_eq {A B : Type} (m : M A) (f : A -> M B) (w w' : World) (a : A) :
  m w = (Some a, w') -> bind m f w = f a w'.
Proof. intros H. unfold bind. rewrite H. reflexivity. Qed.

Lemma call_some (env : Env) {R : Type} (c : Call R) (w : World) :
  call env c w = (Some (fst (env R c (trace w) (errno w))), snd (call env c w)).
Proof. unfold call. destruct (env R c (trace w) (errno w)); reflexivity. Qed.

Lemma bind_assoc {A B C : Type} (m : M A) (f : A -> M B) (g : B -> M C)
    (w : World) :
  bind (bind m f) g w = bind m (fun a => bind (f a) g) w.
Proof. unfold bind. destruct (m w) as [[a|] w']; reflexivity. Qed.

Lemma bind_call (env : Env) {R B : Type} (c : Call R) (f : R -> M B)
    (w : World) :
  bind (call env c) f w
    = f (fst (env R c (trace w) (errno w))) (snd (call env c w)).
Proof. unfold bind. rewrite call_some. reflexivity. Qed.

Lemma bind_ret {A B : Type} (a : A) (f : A -> M B) (w : World) :
  bind (ret a) f w = f a w.
Proof. reflexivity. Qed.

Lemma bind_get_errno {B : Type} (f : Z -> M B) (w : World) :
  bind get_errno f w = f (errno w) w.
Proof. reflexivity. Qed.

Lemma bind_set_errno {B : Type} (e : Z) (f : unit -> M B) (w : World) :
  bind (set_errno e) f w = f tt (mkWorld e (trace w)).
Proof. reflexivity. Qed.

Lemma bind_unspecified_order (env : Env) {B : Type} (c : Call bool)
    (f : bool -> M B) (w : World) :
  bind (unspecified_order env c) f w
    = f (fst (env bool c (trace w) (errno w))) w.
Proof. reflexivity. Qed.

Lemma call_trace (env : Env) {R : Type} (c : Call R) (w w' : World) (r : R) :
  call env c w = (Some r, w') -> trace w' = trace w ++ [Ev c].
Proof.
  unfold call. destruct (env R c (trace w) (errno w)).
  intros H. inversion H. reflexivity.
Qed.

Lemma call_ex (env : Env) {R : Type} (c : Call R) (w : World) :
  exists (r : R) (w' : World),
    call env c w = (Some r, w') /\ trace w' = trace w ++ [Ev c].
Proof.
  exists (fst (env R c (trace w) (errno w))), (snd (call env c w)).
  split; [apply call_some|].
  unfold call. destruct (env R c (trace w) (errno w)); reflexivity.
Qed.

Lemma call_snd_trace (env : Env) {R : Type} (c : Call R) (w : World) :
  trace (snd (call env c w)) = trace w ++ [Ev c].
Proof. unfold call. destruct (env R c (trace w) (errno w)); reflexivity. Qed.

(** Rewrites a goal that starts with a call whose outcome is known. *)
Ltac step H := rewrite (bind_eq _ _ _ _ _ H); cbn beta iota.

(** Collects the log left by a chain of calls. *)
Ltac log_of H := rewrite (call_trace _ _ _ _ _ H).
Ltac log_norm := rewrite <- ?app_assoc; cbn [app].

(** Performs the call at the head of the program, naming its answer and
    the world it leaves, and keeping what the call added to the log. *)
Ltac call_step :=
  match goal with
  | |- context [bind (call ?env ?c) ?f ?w] =>
      let r := fresh "r" in
      let w' := fresh "w" in
      let Hcall := fresh "Hcall" in
      let Hlog := fresh "Hlog" in
      destruct (call_ex env c w) as (r & w' & Hcall & Hlog);
      rewrite (bind_eq _ _ _ _ _ Hcall); cbn beta iota
  | |- context [call ?env ?c ?w] =>
      let r := fresh "r" in
      let w' := fresh "w" in
      let Hcall := fresh "Hcall" in
      let Hlog := fresh "Hlog" in
      destruct (call_ex env c w) as (r & w' & Hcall & Hlog);
      rewrite Hcall; cbn beta iota
  end.

(** Runs a straight-line piece of program on the world it is applied to. *)
Ltac run :=
  repeat first [ rewrite bind_assoc | rewrite bind_ret | call_step
               | rewrite bind_get_errno | rewrite bind_set_errno
               | rewrite bind_unspecified_order;
                 match goal with
                 | |- context [if ?b then _ else _] => destruct b
                 end ];
  cbn beta iota.

(** Replaces the log of every world named by [call_step] by what was
    added to it. *)
Ltac logs :=
  repeat match goal with
         | H : trace ?x = _ |- context [trace ?x] => rewrite H
         end;
  log_norm.

(** ** create_device *)

(** C9. When [evemu_read] returns exactly zero, [create_device] hands back
    the (non-null) handle obtained from [evemu_new]: the log holds the
    allocation and the read and nothing else, so neither [evemu_destroy]
    nor the registration [evemu_create_managed] was called, and the world
    is the one [evemu_read] left. *)
Theorem create_device_read_zero_keeps_handle
    (env : Env) (fp : Stream) (d : Dev) (w w1 w2 : World) :
  call env Evemu_new w = (Some (Some d), w1) ->
  call env (Evemu_read d fp) w1 = (Some 0, w2) ->
  create_device env fp w = (Some (Some d), w2) /\
  trace w2 = trace w ++ [Ev Evemu_new; Ev (Evemu_read d fp)].
Proof.
  intros Hnew Hread. split.
  - unfold create_device. step Hnew. step Hread. reflexivity.
  - log_of Hread. log_of Hnew. log_norm. reflexivity.
Qed.

Lemma create_device_read_zero_keeps_handle_witness :
  create_device (scripted read_returns_zero) (Fp 0) w0
    = (Some (Some 1%nat),
       mkWorld EINVAL [Ev Evemu_new; Ev (Evemu_read 1%nat (Fp 0))]) /\
  trace (mkWorld EINVAL [Ev Evemu_new; Ev (Evemu_read 1%nat (Fp 0))])
    = trace w0 ++ [Ev Evemu_new; Ev (Evemu_read 1%nat (Fp 0))].
Proof.
  apply (create_device_read_zero_keeps_handle
           (scripted read_returns_zero) (Fp 0) 1%nat w0
           (mkWorld 0 [Ev Evemu_new])); reflexivity.
Defined.

(** The failure paths on which the cleanup after [out] does run.  A null
    result of [evemu_new] leaves nothing to destroy. *)
Lemma create_device_alloc_failure
    (env : Env) (fp : Stream) (w w1 : World) :
  call env Evemu_new w = (Some None, w1) ->
  create_device env fp w = (Some None, w1).
Proof.
  intros Hnew. unfold create_device. step Hnew. reflexivity.
Qed.

(** X6. A negative result of [evemu_read] destroys the handle and returns
    null with the [errno] that [evemu_read] left, whatever [evemu_destroy]
    did to it. *)
Lemma create_device_read_negative_cleans_up
    (env : Env) (fp : Stream) (d : Dev) (r : Z) (w w1 w2 w3 : World) :
  call env Evemu_new w = (Some (Some d), w1) ->
  call env (Evemu_read d fp) w1 = (Some r, w2) ->
  r < 0 ->
  call env (Evemu_destroy d) w2 = (Some tt, w3) ->
  create_device env fp w = (Some None, mkWorld (errno w2) (trace w3)) /\
  trace w3 = trace w ++ [Ev Evemu_new; Ev (Evemu_read d fp); Ev (Evemu_destroy d)].
Proof.
  intros Hnew Hread Hr Hdestroy. split.
  - unfold create_device. step Hnew. step Hread.
    replace (r <=? 0) with true by (symmetry; apply Z.leb_le; lia).
    unfold create_device_out.
    replace (r =? 0) with false by (symmetry; apply Z.eqb_neq; lia).
    cbn. step Hdestroy. reflexivity.
  - log_of Hdestroy. log_of Hread. log_of Hnew.
    log_norm. reflexivity.
Qed.

(** A rejected registration does the same: destroy, null, and the [errno]
    of [evemu_create_managed]. *)
Lemma create_device_registration_failure_cleans_up
    (env : Env) (fp : Stream) (d : Dev) (r r' : Z) (name : string)
    (w w1 w2 w3 w4 w5 : World) :
  call env Evemu_new w = (Some (Some d), w1) ->
  call env (Evemu_read d fp) w1 = (Some r, w2) ->
  0 < r ->
  call env (Evemu_get_name d) w2 = (Some name, w3) ->
  name <> ""%string ->
  call env (Evemu_create_managed d) w3 = (Some r', w4) ->
  r' < 0 ->
  call env (Evemu_destroy d) w4 = (Some tt, w5) ->
  create_device env fp w = (Some None, mkWorld (errno w4) (trace w5)).
Proof.
  intros Hnew Hread Hr Hname Hne Hreg Hr' Hdestroy.
  unfold create_device. step Hnew. step Hread.
  replace (r <=? 0) with false by (symmetry; apply Z.leb_gt; lia).
  step Hname.
  destruct name as [|a name']; [congruence|]. cbn [String.length Nat.eqb].
  rewrite bind_ret. step Hreg. unfold create_device_out.
  replace (r' =? 0) with false by (symmetry; apply Z.eqb_neq; lia).
  cbn [negb]. rewrite bind_get_errno. step Hdestroy. reflexivity.
Qed.

(** C2, at the input on which the code departs from it.  [evemu_read]
    returns 0, which [create_device] itself takes for a failure
    ([ret <= 0] jumps to [out]); the handle is nevertheless returned
    non-null and [evemu_destroy] is never called. *)
Theorem create_device_read_zero_skips_cleanup :
  fst (scripted read_returns_zero _ (Evemu_read 1%nat (Fp 0))
         [Ev Evemu_new] 0) <= 0 /\
  fst (create_device (scripted read_returns_zero) (Fp 0) w0)
    = Some (Some 1%nat) /\
  existsb is_destroy_call
    (trace (snd (create_device (scripted read_returns_zero) (Fp 0) w0)))
    = false.
Proof. repeat split; vm_compute; congruence. Qed.

(** C5. For a description that loaded ([evemu_read] positive) with an empty
    name, [create_device] calls [evemu_set_name] with ["evemu-<pid>"], the
    pid printed in decimal, and only then registers the device with
    [evemu_create_managed]; that name is not empty. *)
Theorem create_device_names_nameless_device
    (env : Env) (fp : Stream) (d : Dev) (r pid : Z) (w w1 w2 w3 w4 : World) :
  call env Evemu_new w = (Some (Some d), w1) ->
  call env (Evemu_read d fp) w1 = (Some r, w2) ->
  0 < r ->
  call env (Evemu_get_name d) w2 = (Some ""%string, w3) ->
  call env Getpid w3 = (Some pid, w4) ->
  let name := ("evemu-" ++ format_d pid)%string in
  (exists tail,
     trace (snd (create_device env fp w))
       = trace w ++ [Ev Evemu_new; Ev (Evemu_read d fp);
                     Ev (Evemu_get_name d); Ev Getpid;
                     Ev (Evemu_set_name d name);
                     Ev (Evemu_create_managed d)] ++ tail /\
     (tail = [] \/ tail = [Ev (Evemu_destroy d)])) /\
  name <> ""%string.
Proof.
  intros Hnew Hread Hr Hname Hpid name. split.
  - unfold create_device. step Hnew. step Hread.
    replace (r <=? 0) with false by (symmetry; apply Z.leb_gt; lia).
    step Hname. cbn [String.length Nat.eqb].
    rewrite bind_assoc. step Hpid.
    rewrite bind_call.
    set (w5 := snd (call env (Evemu_set_name d (sprintf_evemu_d pid)) w4)).
    assert (H5 : trace w5 = trace w4 ++ [Ev (Evemu_set_name d name)])
      by apply call_snd_trace.
    rewrite bind_call.
    set (w6 := snd (call env (Evemu_create_managed d) w5)).
    assert (H6 : trace w6 = trace w5 ++ [Ev (Evemu_create_managed d)])
      by apply call_snd_trace.
    set (r6 := fst (env Z (Evemu_create_managed d) (trace w5) (errno w5))).
    assert (H4 : trace w4 = trace w ++ [Ev Evemu_new; Ev (Evemu_read d fp);
                                        Ev (Evemu_get_name d); Ev Getpid]).
    { log_of Hpid. log_of Hname. log_of Hread. log_of Hnew.
      log_norm. reflexivity. }
    unfold create_device_out.
    destruct (negb (r6 =? 0)).
    + unfold get_errno, bind at 1. rewrite bind_call. cbn.
      exists [Ev (Evemu_destroy d)]. split; [|right; reflexivity].
      rewrite call_snd_trace, H6, H5, H4. log_norm. reflexivity.
    + exists []. split; [|left; reflexivity].
      cbn. rewrite H6, H5, H4. log_norm. reflexivity.
  - unfold name. cbn. discriminate.
Qed.

Lemma create_device_names_nameless_device_witness :
  (exists tail,
     trace (snd (create_device (scripted nameless) (Fp 0) w0))
       = trace w0 ++ [Ev Evemu_new; Ev (Evemu_read 1%nat (Fp 0));
                      Ev (Evemu_get_name 1%nat); Ev Getpid;
                      Ev (Evemu_set_name 1%nat "evemu-4242");
                      Ev (Evemu_create_managed 1%nat)] ++ tail /\
     (tail = [] \/ tail = [Ev (Evemu_destroy 1%nat)])) /\
  "evemu-4242"%string <> ""%string.
Proof.
  apply (create_device_names_nameless_device
           (scripted nameless) (Fp 0) 1%nat 1 4242 w0
           (mkWorld 0 [Ev Evemu_new])
           (mkWorld 0 [Ev Evemu_new; Ev (Evemu_read 1%nat (Fp 0))])
           (mkWorld 0 [Ev Evemu_new; Ev (Evemu_read 1%nat (Fp 0));
                       Ev (Evemu_get_name 1%nat)])
           (mkWorld 0 [Ev Evemu_new; Ev (Evemu_read 1%nat (Fp 0));
                       Ev (Evemu_get_name 1%nat); Ev Getpid]));
    try reflexivity; lia.
Defined.

(** ** The hold loop *)

Lemma after_reads_trace (env : Env) (fd : Z) (n : nat) :
  forall w : World,
    trace (after_reads env fd n w)
      = trace w ++ repeat (Ev (Sys_read fd 256)) n.
Proof.
  induction n as [|n IH]; intros w; cbn [after_reads repeat].
  - symmetry. apply app_nil_r.
  - rewrite IH, call_snd_trace. log_norm. reflexivity.
Qed.

Lemma int_of_ssize_t_id (z : Z) :
  INT_MIN <= z <= INT_MAX -> int_of_ssize_t z = z.
Proof.
  unfold INT_MIN, INT_MAX, int_of_ssize_t. intros H.
  rewrite Z.mod_small; lia.
Qed.

(** [N] positive reads and then one that is not, all within the range of
    [int]: the loop stops after that read, with one unit of fuel spent per
    read. *)
Lemma hold_loop_stops (env : Env) (fd : Z) (N : nat) :
  forall (fuel : nat) (w : World),
    (forall i : nat, (i <= N)%nat ->
       INT_MIN <= read_count env fd (after_reads env fd i w) <= INT_MAX) ->
    (forall i : nat, (i < N)%nat ->
       0 < read_count env fd (after_reads env fd i w)) ->
    read_count env fd (after_reads env fd N w) <= 0 ->
    (N + 1 <= fuel)%nat ->
    hold_loop env fuel fd w = (Some tt, after_reads env fd (S N) w).
Proof.
  induction N as [|N IH]; intros fuel w Hint Hpos Hstop Hfuel;
    (destruct fuel as [|fuel]; [lia|]); cbn [hold_loop]; rewrite bind_call;
    cbn zeta;
    (assert (Hint0 : INT_MIN <= read_count env fd w <= INT_MAX)
       by (apply (Hint O); lia));
    unfold read_count in Hint0; rewrite (int_of_ssize_t_id _ Hint0).
  - cbn [after_reads] in *. unfold read_count in Hstop.
    replace (_ >? 0) with false
      by (symmetry; rewrite Z.gtb_ltb; apply Z.ltb_ge; exact Hstop).
    reflexivity.
  - assert (H0 : 0 < read_count env fd w) by (apply (Hpos O); lia).
    unfold read_count in H0.
    replace (_ >? 0) with true
      by (symmetry; rewrite Z.gtb_ltb; apply Z.ltb_lt; exact H0).
    rewrite IH; [reflexivity| | |exact Hstop|lia].
    + intros i Hi. apply (Hint (S i)). lia.
    + intros i Hi. apply (Hpos (S i)). lia.
Qed.

(** With [N] or more positive reads ahead, all within the range of [int],
    and a budget of at most [N] reads, the loop is still reading when the
    budget ends. *)
Lemma hold_loop_out_of_fuel (env : Env) (fd : Z) (fuel : nat) :
  forall w : World,
    (forall i : nat, (i < fuel)%nat ->
       0 < read_count env fd (after_reads env fd i w) <= INT_MAX) ->
    hold_loop env fuel fd w = (None, after_reads env fd fuel w).
Proof.
  induction fuel as [|fuel IH]; intros w Hpos; cbn [hold_loop after_reads].
  - reflexivity.
  - rewrite bind_call. cbn zeta.
    assert (H0 : 0 < read_count env fd w <= INT_MAX) by (apply (Hpos O); lia).
    unfold read_count in H0.
    rewrite int_of_ssize_t_id by (unfold INT_MIN; lia).
    replace (_ >? 0) with true
      by (symmetry; rewrite Z.gtb_ltb; apply Z.ltb_lt; apply H0).
    apply IH. intros i Hi. apply (Hpos (S i)). lia.
Qed.

(** C4. Once the node is open on [fd], if the reads on [fd] return [N > 0]
    positive counts and then a count that is zero or negative (counts as
    [read] returns them, within the range of [int]), the hold loop
    issues exactly [N + 1] reads, whatever bytes they deliver, then
    closes [fd] and returns: the log after the open is [N + 1] reads
    followed by the close, so no read follows the non-positive one.  Any
    fuel of at least [N + 1] is enough. *)
Theorem open_and_hold_device_reads_until_eof
    (env : Env) (dev : Dev) (fd : Z) (N fuel : nat) (w_start w : World) :
  open_evemu_device env dev w_start = (Some fd, w) ->
  0 <= fd ->
  (0 < N)%nat ->
  (forall i : nat, (i <= N)%nat ->
     INT_MIN <= read_count env fd (after_reads env fd i w) <= INT_MAX) ->
  (forall i : nat, (i < N)%nat ->
     0 < read_count env fd (after_reads env fd i w)) ->
  read_count env fd (after_reads env fd N w) <= 0 ->
  (N + 1 <= fuel)%nat ->
  hold_loop env fuel fd w = (Some tt, after_reads env fd (N + 1) w) /\
  exists w' : World,
    open_and_hold_device env fuel dev w_start = (Some tt, w') /\
    trace w' = trace w ++ repeat (Ev (Sys_read fd 256)) (N + 1)
                       ++ [Ev (Sys_close fd)].
Proof.
  intros Hopen Hfd HN Hint Hpos Hstop Hfuel.
  assert (Hloop : hold_loop env fuel fd w
                  = (Some tt, after_reads env fd (N + 1) w)).
  { rewrite Nat.add_1_r. apply hold_loop_stops; assumption. }
  split; [exact Hloop|].
  unfold open_and_hold_device. step Hopen.
  replace (fd <? 0) with false by (symmetry; apply Z.ltb_ge; exact Hfd).
  step Hloop. rewrite bind_call. unfold ret.
  eexists. split; [reflexivity|].
  rewrite call_snd_trace, after_reads_trace. log_norm. reflexivity.
Qed.

Lemma open_and_hold_device_reads_until_eof_witness :
  hold_loop (scripted all_good) 4 4
      (snd (open_evemu_device (scripted all_good) 1%nat w0))
    = (Some tt,
       after_reads (scripted all_good) 4 (3 + 1)
         (snd (open_evemu_device (scripted all_good) 1%nat w0))) /\
  exists w' : World,
    open_and_hold_device (scripted all_good) 4 1%nat w0 = (Some tt, w') /\
    trace w'
      = trace (snd (open_evemu_device (scripted all_good) 1%nat w0))
          ++ repeat (Ev (Sys_read 4 256)) (3 + 1) ++ [Ev (Sys_close 4)].
Proof.
  apply (open_and_hold_device_reads_until_eof
           (scripted all_good) 1%nat 4 3 4 w0).
  - reflexivity.
  - lia.
  - lia.
  - intros i Hi.
    destruct i as [|[|[|[|i]]]]; [| | | |lia];
      (split; vm_compute; discriminate).
  - intros i Hi.
    destruct i as [|[|[|i]]]; [reflexivity | reflexivity | reflexivity | lia].
  - vm_compute. discriminate.
  - lia.
Defined.

(** ** File mode *)

(** [open_evemu_device] has no loop: it always returns. *)
Lemma open_evemu_device_total (env : Env) (dev : Dev) (w : World) :
  exists (fd : Z) (w' : World), open_evemu_device env dev w = (Some fd, w').
Proof.
  unfold open_evemu_device, fprintf. rewrite bind_call.
  destruct (fst (env _ (Evemu_get_devnode dev) (trace w) (errno w)))
    as [node|].
  - rewrite bind_call.
    match goal with |- context [if ?b then _ else _] => destruct b end.
    + run; unfold ret; eauto.
    + run. unfold ret. eauto.
  - run. unfold ret. eauto.
Qed.

(** C3. Once [create_device] has returned a handle, [play_from_file] ends
    on every path with [evemu_delete] on that handle, [fclose] on the
    recording stream and [close] on the descriptor that
    [open_evemu_device] returned, and returns 0.  When the node could not
    be opened nothing lies between the failed open and the teardown;
    otherwise the replay and, if it failed, its report do. *)
Theorem play_from_file_always_tears_down
    (env : Env) (recording_fd start_offset_us : Z) (fp : Stream) (dev : Dev)
    (w w1 w2 : World) :
  call env (Fdopen recording_fd "r") w = (Some (Some fp), w1) ->
  create_device env fp w1 = (Some (Some dev), w2) ->
  exists (fd : Z) (w3 w' : World) (body : list Event),
    open_evemu_device env dev w2 = (Some fd, w3) /\
    play_from_file env recording_fd start_offset_us w = (Some 0, w') /\
    trace w' = trace w3 ++ body ++ [Ev (Evemu_delete dev); Ev (Fclose fp);
                                    Ev (Sys_close fd)] /\
    (fd < 0 /\ body = [] \/
     0 <= fd /\
     exists r : Z,
       body = replay_prologue fp
                ++ [Ev (Evemu_play fp fd start_offset_us)]
                ++ replay_report r).
Proof.
  intros Hfdopen Hcreate.
  destruct (open_evemu_device_total env dev w2) as (fd & w3 & Hopen).
  exists fd, w3.
  unfold play_from_file. step Hfdopen. step Hcreate. step Hopen.
  destruct (fd <? 0) eqn:Hfd.
  - unfold play_from_file_out. run. unfold ret.
    eexists. exists []. split; [exact Hopen|]. split; [reflexivity|]. split.
    + cbn [trace]. logs. reflexivity.
    + left. split; [apply Z.ltb_lt; exact Hfd | reflexivity].
  - unfold printf, fprintf. run.
    match goal with
    | |- context [negb (?r =? 0)] => set (rv := r)
    end.
    assert (Hrep : replay_report rv
                   = if rv =? 0 then []
                     else [Ev (Fprintf Stderr
                                 "error: could not replay device\n" [])])
      by reflexivity.
    destruct (rv =? 0); cbn [negb]; unfold play_from_file_out; run;
      unfold ret; eexists;
      exists (replay_prologue fp
                ++ [Ev (Evemu_play fp fd start_offset_us)]
                ++ replay_report rv);
      (split; [exact Hopen|]); (split; [reflexivity|]); (split;
        [rewrite Hrep; unfold replay_prologue; cbn [trace]; logs; reflexivity
        |right; split; [apply Z.ltb_ge; exact Hfd|exists rv; reflexivity]]).
Qed.

Lemma play_from_file_always_tears_down_witness :
  exists (fd : Z) (w3 w' : World) (body : list Event),
    open_evemu_device (scripted replay_fails) 1%nat
      (snd (create_device (scripted replay_fails) (Fp 0)
              (mkWorld 0 [Ev (Fdopen 3 "r")])))
      = (Some fd, w3) /\
    play_from_file (scripted replay_fails) 3 2000 w0 = (Some 0, w') /\
    trace w' = trace w3 ++ body ++ [Ev (Evemu_delete 1%nat); Ev (Fclose (Fp 0));
                                    Ev (Sys_close fd)] /\
    (fd < 0 /\ body = [] \/
     0 <= fd /\
     exists r : Z,
       body = replay_prologue (Fp 0)
                ++ [Ev (Evemu_play (Fp 0) fd 2000)]
                ++ replay_report r).
Proof.
  apply (play_from_file_always_tears_down
           (scripted replay_fails) 3 2000 (Fp 0) 1%nat w0
           (mkWorld 0 [Ev (Fdopen 3 "r")])); reflexivity.
Defined.

(** ** Mode selection in [play] *)

Lemma log_since_app (w w' : World) (l : list Event) :
  trace w' = trace w ++ l -> log_since w w' = l.
Proof.
  intros H. unfold log_since. rewrite H, skipn_app, Nat.sub_diag, skipn_all.
  reflexivity.
Qed.

Lemma start_offset_log (env : Env) (argc : Z) (argv : list string)
    (off : Z) (w w' : World) :
  start_offset env argc argv w = (Some off, w') ->
  trace w' = trace w ++ offset_log argc argv off.
Proof.
  unfold start_offset, offset_log, printf, fprintf.
  destruct (argc =? 3).
  - run. unfold ret. intros H. inversion H; subst. logs. reflexivity.
  - unfold ret. intros H. inversion H; subst. symmetry. apply app_nil_r.
Qed.

Lemma offset_log_creates_nothing (argc : Z) (argv : list string) (off : Z) :
  existsb is_device_creation_call (offset_log argc argv off) = false.
Proof. unfold offset_log. destruct (argc =? 3); reflexivity. Qed.

Lemma replay_report_creates_nothing (r : Z) :
  existsb is_device_creation_call (replay_report r) = false.
Proof. unfold replay_report. destruct (r =? 0); reflexivity. Qed.

(** [create_device] has no loop, and starts by allocating the handle. *)
Lemma create_device_total (env : Env) (fp : Stream) (w : World) :
  exists (dev : option Dev) (w' : World) (l : list Event),
    create_device env fp w = (Some dev, w') /\
    trace w' = trace w ++ Ev Evemu_new :: l.
Proof.
  unfold create_device. call_step. destruct r as [d|].
  - call_step. destruct (r <=? 0).
    + unfold create_device_out. destruct (negb (r =? 0)).
      * run. unfold ret, set_errno. do 2 eexists.
        exists [Ev (Evemu_read d fp); Ev (Evemu_destroy d)].
        split; [reflexivity|]. cbn [trace]. logs. reflexivity.
      * unfold ret. do 2 eexists. exists [Ev (Evemu_read d fp)].
        split; [reflexivity|]. logs. reflexivity.
    + call_step. destruct (String.length r0 =? 0)%nat.
      * run. unfold create_device_out. destruct (negb (r3 =? 0)).
        -- run. unfold ret, set_errno. do 2 eexists.
           exists [Ev (Evemu_read d fp); Ev (Evemu_get_name d); Ev Getpid;
                   Ev (Evemu_set_name d (sprintf_evemu_d r1));
                   Ev (Evemu_create_managed d); Ev (Evemu_destroy d)].
           split; [reflexivity|]. cbn [trace]. logs. reflexivity.
        -- unfold ret. do 2 eexists.
           exists [Ev (Evemu_read d fp); Ev (Evemu_get_name d); Ev Getpid;
                   Ev (Evemu_set_name d (sprintf_evemu_d r1));
                   Ev (Evemu_create_managed d)].
           split; [reflexivity|]. logs. reflexivity.
      * run. unfold create_device_out. destruct (negb (r1 =? 0)).
        -- run. unfold ret, set_errno. do 2 eexists.
           exists [Ev (Evemu_read d fp); Ev (Evemu_get_name d);
                   Ev (Evemu_create_managed d); Ev (Evemu_destroy d)].
           split; [reflexivity|]. cbn [trace]. logs. reflexivity.
        -- unfold ret. do 2 eexists.
           exists [Ev (Evemu_read d fp); Ev (Evemu_get_name d);
                   Ev (Evemu_create_managed d)].
           split; [reflexivity|]. logs. reflexivity.
  - unfold create_device_out, ret. do 2 eexists. exists [].
    split; [reflexivity|]. logs. reflexivity.
Qed.

(** ** What a piece of program adds to the log *)

Section Emits.

Variable P : Event -> Prop.

Lemma emits_ret {A : Type} (a : A) : emits P (ret a).
Proof. intros w. exists []. split; [symmetry; apply app_nil_r | constructor]. Qed.

Lemma emits_out_of_fuel {A : Type} : emits P (@out_of_fuel A).
Proof. intros w. exists []. split; [symmetry; apply app_nil_r | constructor]. Qed.

Lemma emits_get_errno : emits P get_errno.
Proof. intros w. exists []. split; [symmetry; apply app_nil_r | constructor]. Qed.

Lemma emits_unspecified_order (env : Env) (c : Call bool) :
  emits P (unspecified_order env c).
Proof. intros w. exists []. split; [symmetry; apply app_nil_r | constructor]. Qed.

Lemma emits_set_errno (e : Z) : emits P (set_errno e).
Proof. intros w. exists []. split; [symmetry; apply app_nil_r | constructor]. Qed.

Lemma emits_call (env : Env) {R : Type} (c : Call R) :
  P (Ev c) -> emits P (call env c).
Proof.
  intros Hc w. exists [Ev c]. split; [apply call_snd_trace|].
  constructor; [exact Hc | constructor].
Qed.

Lemma emits_bind {A B : Type} (m : M A) (f : A -> M B) :
  emits P m -> (forall a : A, emits P (f a)) -> emits P (bind m f).
Proof.
  intros Hm Hf w. unfold bind.
  destruct (Hm w) as (l & Hl & HP).
  destruct (m w) as [[a|] w']; cbn [snd] in *.
  - destruct (Hf a w') as (k & Hk & HQ).
    exists (l ++ k). split.
    + rewrite Hk, Hl. symmetry. apply app_assoc.
    + apply Forall_app. split; assumption.
  - exists l. split; assumption.
Qed.

End Emits.

(** Decomposes a program into its calls; what is left is to check [P] on
    each call. *)
Ltac emits_steps :=
  repeat first
    [ apply emits_ret
    | apply emits_get_errno
    | apply emits_set_errno
    | apply emits_unspecified_order
    | apply emits_out_of_fuel
    | apply emits_bind; [|intros ?]
    | apply emits_call; reflexivity
    | match goal with
      | |- emits _ (if ?b then _ else _) => destruct b
      | |- emits _ (match ?x with _ => _ end) => destruct x
      end ].

Lemma open_evemu_device_not_tuner (env : Env) (dev : Dev) :
  emits not_tuner (open_evemu_device env dev).
Proof. unfold open_evemu_device, fprintf. emits_steps. Qed.

Lemma hold_loop_not_tuner (env : Env) (fd : Z) (fuel : nat) :
  emits not_tuner (hold_loop env fuel fd).
Proof.
  induction fuel as [|fuel IH]; cbn [hold_loop]; emits_steps. exact IH.
Qed.

Lemma create_device_out_not_tuner (env : Env) (r : Z) (dev : option Dev) :
  emits not_tuner (create_device_out env r dev).
Proof. unfold create_device_out. emits_steps. Qed.

Lemma create_device_not_tuner (env : Env) (fp : Stream) :
  emits not_tuner (create_device env fp).
Proof.
  unfold create_device. emits_steps; apply create_device_out_not_tuner.
Qed.

Lemma device_not_tuner (env : Env) (fuel : nat) (argc : Z)
    (argv : list string) :
  emits not_tuner (device env fuel argc argv).
Proof.
  unfold device, evemu_device, open_and_hold_device, fprintf.
  emits_steps;
    first [ apply create_device_out_not_tuner
          | apply hold_loop_not_tuner ].
Qed.

Lemma play_from_file_not_tuner (env : Env) (fd off : Z) :
  emits not_tuner (play_from_file env fd off).
Proof.
  unfold play_from_file, play_from_file_out, printf, fprintf.
  emits_steps; apply create_device_out_not_tuner.
Qed.

Lemma play_not_tuner (env : Env) (argc : Z) (argv : list string) :
  emits not_tuner (play env argc argv).
Proof.
  unfold play, start_offset, play_from_stdin, printf, fprintf.
  emits_steps; apply create_device_out_not_tuner.
Qed.

(** ** The scheduling tuner *)

(** The [if]/[else] after each tuner call logs one line and goes on. *)
Lemma tuner_report (env : Env) (r : Z) (failure success : string)
    (w : World) :
  exists w' : World,
    (if negb (r =? 0) then call env (Perror failure)
     else printf env success [] ;;; ret tt) w = (Some tt, w') /\
    trace w' = trace w ++ [step_report r failure success].
Proof.
  unfold step_report, printf, fprintf. destruct (r =? 0); cbn [negb].
  - run. eexists. split; [reflexivity|assumption].
  - call_step. destruct r0. eexists. split; [reflexivity|assumption].
Qed.

(** C8. Whatever the three calls return, [setup_realtime_cpu] pins the CPU,
    then asks for [SCHED_FIFO] at priority 99, then locks memory: each call
    is made in the world left by the report of the one before, each is
    followed by its own report line ([perror] when it returned nonzero),
    and the function returns.  [main] runs it first and once: the log of
    [main] is the tuner's log followed by a rest (the work of [device] or
    [play], complete or cut short by the loop budget) that holds no tuner
    call. *)
Theorem setup_realtime_cpu_runs_every_step_once (env : Env) (w : World) :
  exists (r1 r2 r3 : Z) (w1 w1' w2 w2' w3 w' : World),
    call env (Sched_setaffinity 0 sizeof_cpu_set_t (CPU_SET 3 CPU_ZERO)) w
      = (Some r1, w1) /\
    trace w1' = trace w1 ++ [step_report r1 "sched_setaffinity failed"
                               "✅ CPU pinned to core 3\n"] /\
    call env (Sched_setscheduler 0 SCHED_FIFO 99) w1' = (Some r2, w2) /\
    trace w2' = trace w2 ++ [step_report r2
                               "sched_setscheduler failed (are you root?)"
                               "✅ Real-time scheduler enabled (SCHED_FIFO)\n"] /\
    call env (Mlockall (Z.lor MCL_CURRENT MCL_FUTURE)) w2' = (Some r3, w3) /\
    trace w' = trace w3 ++ [step_report r3 "mlockall failed"
                              "✅ Memory locked (no paging)\n"] /\
    setup_realtime_cpu env w = (Some tt, w') /\
    forall (fuel : nat) (prgm_name : option string) (argc : Z)
           (argv : list string),
    exists rest : list Event,
      trace (snd (main env fuel prgm_name argc argv w)) = trace w' ++ rest /\
      Forall not_tuner rest.
Proof.
  destruct (call_ex env
              (Sched_setaffinity 0 sizeof_cpu_set_t (CPU_SET 3 CPU_ZERO)) w)
    as (r1 & w1 & H1 & _).
  destruct (tuner_report env r1 "sched_setaffinity failed"
              "✅ CPU pinned to core 3\n" w1) as (w1' & E1 & L1).
  destruct (call_ex env (Sched_setscheduler 0 SCHED_FIFO 99) w1')
    as (r2 & w2 & H2 & _).
  destruct (tuner_report env r2 "sched_setscheduler failed (are you root?)"
              "✅ Real-time scheduler enabled (SCHED_FIFO)\n" w2)
    as (w2' & E2 & L2).
  destruct (call_ex env (Mlockall (Z.lor MCL_CURRENT MCL_FUTURE)) w2')
    as (r3 & w3 & H3 & _).
  destruct (tuner_report env r3 "mlockall failed"
              "✅ Memory locked (no paging)\n" w3) as (w' & E3 & L3).
  assert (Hsetup : setup_realtime_cpu env w = (Some tt, w')).
  { unfold setup_realtime_cpu. cbn zeta.
    step H1. step E1. step H2. step E2. step H3. exact E3. }
  exists r1, r2, r3, w1, w1', w2, w2', w3, w'.
  repeat (split; [assumption|]).
  intros fuel prgm_name argc argv.
  unfold main. step Hsetup.
  destruct prgm_name as [n|].
  - destruct ((n =? "evemu-device")%string || (n =? "lt-evemu-device")%string).
    + apply device_not_tuner.
    + apply play_not_tuner.
  - apply play_not_tuner.
Qed.

(** ** The two replay modes *)

Lemma bind_log_extends (P : Event -> Prop) {A B : Type} (m : M A)
    (f : A -> M B) (w : World) :
  (forall a : A, emits P (f a)) ->
  exists l : list Event, trace (snd (bind m f w)) = trace (snd (m w)) ++ l.
Proof.
  intros Hf. unfold bind. destruct (m w) as [[a|] w1]; cbn [snd].
  - destruct (Hf a w1) as (l & Hl & _). exists l. exact Hl.
  - exists []. symmetry. apply app_nil_r.
Qed.

(** [play_from_file] has no loop: it always returns. *)
Lemma play_from_file_total (env : Env) (fd off : Z) (w : World) :
  exists (r : Z) (w' : World), play_from_file env fd off w = (Some r, w').
Proof.
  unfold play_from_file, printf, fprintf. call_step.
  destruct r as [fp|]; [|run; unfold ret; eauto].
  destruct (create_device_total env fp w1) as (dev & w2 & l & Hc & _).
  step Hc. destruct dev as [dev|]; [|run; unfold ret; eauto].
  destruct (open_evemu_device_total env dev w2) as (nfd & w3 & Ho).
  step Ho. destruct (nfd <? 0); unfold play_from_file_out; run.
  - unfold ret; eauto.
  - match goal with |- context [negb ?b] => destruct b end;
      cbn [negb]; run; unfold ret; eauto.
Qed.

Lemma bind_eq_four {A B C D E : Type} (a : M A) (b : M B) (c : M C)
    (d : M D) (k : M E) (w w' : World) (x : D) :
  (a ;;; b ;;; c ;;; d) w = (Some x, w') ->
  (a ;;; b ;;; c ;;; d ;;; k) w = k w'.
Proof.
  unfold bind.
  destruct (a w) as [[?|] wa]; [|discriminate].
  destruct (b wa) as [[?|] wb]; [|discriminate].
  destruct (c wb) as [[?|] wc]; [|discriminate].
  intros H. rewrite H. reflexivity.
Qed.

Section Dispatch.

(** [play] got past its argument check, opened the target as [fd], looked
    at it with [fstat], and settled the start offset [off]; [w3] is the
    world in which it tests [S_ISCHR]. *)
Variable env : Env.
Variables (argc : Z) (argv : list string).
Variables (fd off : Z) (st : Z * Z).
Variables w w1 w2 w3 : World.

Hypothesis Hargc : 2 <= argc <= 3.
Hypothesis Hopen : call env (Sys_open (arg argv 1) O_RDWR) w = (Some fd, w1).
Hypothesis Hfd : 0 <= fd.
Hypothesis Hfstat : call env (Sys_fstat fd) w1 = (Some st, w2).
Hypothesis Hst : fst st <> -1.
Hypothesis Hoff : start_offset env argc argv w2 = (Some off, w3).

Lemma play_dispatch :
  play env argc argv w
    = ((if S_ISCHR (snd st) then play_from_stdin env fd
        else play_from_file env fd off) ;;;
       call env (Sys_close fd) ;;; ret 0) w3.
Proof.
  unfold play.
  replace ((argc <? 2) || (argc >? 3)) with false.
  2:{ symmetry. apply orb_false_iff. split.
      - apply Z.ltb_ge. lia.
      - rewrite Z.gtb_ltb. apply Z.ltb_ge. lia. }
  step Hopen.
  replace (fd <? 0) with false by (symmetry; apply Z.ltb_ge; exact Hfd).
  step Hfstat.
  replace (fst st =? -1) with false by (symmetry; apply Z.eqb_neq; exact Hst).
  step Hoff. reflexivity.
Qed.

Lemma dispatch_log :
  trace w3 = trace w ++ [Ev (Sys_open (arg argv 1) O_RDWR); Ev (Sys_fstat fd)]
                     ++ offset_log argc argv off.
Proof.
  rewrite (start_offset_log _ _ _ _ _ _ Hoff).
  log_of Hfstat. log_of Hopen. log_norm. reflexivity.
Qed.

Lemma play_live_log (r : Z) (w4 : World) :
  S_ISCHR (snd st) = true ->
  call env (Evemu_play Stdin fd 0) w3 = (Some r, w4) ->
  exists w' : World,
    play env argc argv w = (Some 0, w') /\
    trace w' = trace w4 ++ replay_report r ++ [Ev (Sys_close fd)].
Proof.
  intros Hchr Hplay.
  rewrite play_dispatch, Hchr.
  unfold play_from_stdin, replay_report, fprintf. cbn zeta.
  rewrite bind_assoc. step Hplay.
  destruct (r =? 0); cbn [negb]; run; unfold ret;
    eexists; (split; [reflexivity|]); logs; reflexivity.
Qed.

(** C10. When the target is a character device, [play] returns 0 whatever
    [evemu_play] on standard input returned: [play_from_stdin] returns
    that value [r] (after the report line when [r] is not 0), and [play]
    drops it, closes the target and returns 0. *)
Theorem play_live_mode_ignores_replay_result (r : Z) (w4 : World) :
  S_ISCHR (snd st) = true ->
  call env (Evemu_play Stdin fd 0) w3 = (Some r, w4) ->
  replay_report r
    = (if r =? 0 then []
       else [Ev (Fprintf Stderr "error: could not replay device\n" [])]) /\
  fst (play_from_stdin env fd w3) = Some r /\
  exists w' : World,
    play env argc argv w = (Some 0, w') /\
    trace w' = trace w4 ++ replay_report r ++ [Ev (Sys_close fd)].
Proof.
  intros Hchr Hplay. split; [reflexivity|]. split.
  - unfold play_from_stdin, fprintf. cbn zeta. step Hplay.
    destruct (r =? 0); cbn [negb]; run; reflexivity.
  - apply play_live_log; assumption.
Qed.

(** On every path of file mode, also those that never reach the replay,
    [play] returns 0. *)
Lemma play_file_mode_returns_zero :
  S_ISCHR (snd st) = false ->
  exists w' : World, play env argc argv w = (Some 0, w').
Proof.
  intros Hreg. rewrite play_dispatch, Hreg.
  destruct (play_from_file_total env fd off w3) as (r & w4 & Hfile).
  step Hfile. run. unfold ret. eauto.
Qed.

(** C7. When the target is not a character device and [play_from_file]
    got as far as the replay, [play] returns 0 whatever [evemu_play]
    returned: after the result [r] comes the report line on the error
    stream when [r] is not 0 and nothing when it is, then the teardown, the
    close of the target, and the return of 0. *)
Theorem play_file_mode_ignores_replay_result
    (fp : Stream) (dev : Dev) (node_fd r x : Z) (w4 w5 w6 w7 w8 : World) :
  S_ISCHR (snd st) = false ->
  call env (Fdopen fd "r") w3 = (Some (Some fp), w4) ->
  create_device env fp w4 = (Some (Some dev), w5) ->
  open_evemu_device env dev w5 = (Some node_fd, w6) ->
  0 <= node_fd ->
  (printf env "\n" [] ;;;
   printf env "Starting Evemu Replay TEST.. FOR ME NEWE" [] ;;;
   call env (Fflush Stdout) ;;;
   call env (Fseek fp 0 SEEK_SET)) w6 = (Some x, w7) ->
  call env (Evemu_play fp node_fd off) w7 = (Some r, w8) ->
  replay_report r
    = (if r =? 0 then []
       else [Ev (Fprintf Stderr "error: could not replay device\n" [])]) /\
  fst (play_from_file env fd off w3) = Some 0 /\
  exists w' : World,
    play env argc argv w = (Some 0, w') /\
    trace w' = trace w8 ++ replay_report r
                 ++ [Ev (Evemu_delete dev); Ev (Fclose fp);
                     Ev (Sys_close node_fd); Ev (Sys_close fd)].
Proof.
  intros Hreg Hfdopen Hcreate Hnode Hnfd Hbanner Hplay.
  split; [reflexivity|].
  assert (Hfile : exists w9 : World,
             play_from_file env fd off w3 = (Some 0, w9) /\
             trace w9 = trace w8 ++ replay_report r
                          ++ [Ev (Evemu_delete dev); Ev (Fclose fp);
                              Ev (Sys_close node_fd)]).
  { unfold play_from_file. step Hfdopen. step Hcreate. step Hnode.
    replace (node_fd <? 0) with false
      by (symmetry; apply Z.ltb_ge; exact Hnfd).
    rewrite (bind_eq_four _ _ _ _ _ _ _ _ Hbanner). step Hplay.
    unfold replay_report, play_from_file_out, fprintf.
    destruct (r =? 0); cbn [negb]; run; unfold ret;
      eexists; (split; [reflexivity|]); logs; reflexivity. }
  destruct Hfile as (w9 & Hfile & Hlog9). split.
  - rewrite Hfile. reflexivity.
  - rewrite play_dispatch, Hreg. step Hfile. run. unfold ret.
    eexists. split; [reflexivity|]. logs. reflexivity.
Qed.

Lemma call_never_runs_out (R : Type) (c : Call R) (w4 w5 : World) :
  call env c w4 <> (None, w5).
Proof. rewrite call_some. discriminate. Qed.

(** C1, as the code has it.  When the target is a character device,
    [play] replays standard input onto the descriptor [fd] it opened, with
    start offset 0, and its whole log holds no device-creation call.
    Otherwise it runs [play_from_file] on [fd] and the start offset; that
    wraps [fd] with [fdopen] and, when a stream comes back, goes straight
    into [create_device] on that stream, which begins by allocating a
    handle; when [fdopen] returns null the log holds no device-creation
    call. *)
Theorem play_selects_mode_by_file_type :
  if S_ISCHR (snd st) then
    exists (r : Z) (w4 w' : World),
      call env (Evemu_play Stdin fd 0) w3 = (Some r, w4) /\
      play env argc argv w = (Some 0, w') /\
      log_since w w'
        = [Ev (Sys_open (arg argv 1) O_RDWR); Ev (Sys_fstat fd)]
            ++ offset_log argc argv off
            ++ [Ev (Evemu_play Stdin fd 0)] ++ replay_report r
            ++ [Ev (Sys_close fd)] /\
      existsb is_device_creation_call (log_since w w') = false
  else
    play env argc argv w
      = (play_from_file env fd off ;;; call env (Sys_close fd) ;;; ret 0) w3 /\
    match call env (Fdopen fd "r") w3 with
    | (Some (Some fp), w4) =>
        exists l1 l2 : list Event,
          trace (snd (create_device env fp w4))
            = trace w4 ++ Ev Evemu_new :: l1 /\
          trace (snd (play env argc argv w))
            = trace (snd (create_device env fp w4)) ++ l2
    | (_, _) =>
        existsb is_device_creation_call
          (log_since w (snd (play env argc argv w))) = false
    end.
Proof.
  destruct (S_ISCHR (snd st)) eqn:Hchr.
  - destruct (call_ex env (Evemu_play Stdin fd 0) w3) as (r & w4 & Hplay & L4).
    destruct (play_live_log r w4 Hchr Hplay) as (w' & Hret & L').
    exists r, w4, w'. split; [exact Hplay|]. split; [exact Hret|].
    assert (Hlog : log_since w w'
                   = [Ev (Sys_open (arg argv 1) O_RDWR); Ev (Sys_fstat fd)]
                       ++ offset_log argc argv off
                       ++ [Ev (Evemu_play Stdin fd 0)] ++ replay_report r
                       ++ [Ev (Sys_close fd)]).
    { apply log_since_app. rewrite L', L4, dispatch_log.
      rewrite <- !app_assoc. reflexivity. }
    split; [exact Hlog|].
    rewrite Hlog, !existsb_app, offset_log_creates_nothing,
      replay_report_creates_nothing. reflexivity.
  - rewrite play_dispatch, Hchr. split; [reflexivity|].
    destruct (call env (Fdopen fd "r") w3) as [[[fp|]|] w4] eqn:Hfdopen.
    + destruct (create_device_total env fp w4) as (dev & w5 & l1 & Hc & L5).
      exists l1. rewrite Hc. cbn [snd].
      assert (Hrest : exists l2 : list Event,
                 trace (snd ((play_from_file env fd off ;;;
                              call env (Sys_close fd) ;;; ret 0) w3))
                   = trace (snd (create_device env fp w4)) ++ l2).
      { unfold play_from_file. rewrite bind_assoc. step Hfdopen.
        rewrite bind_assoc. apply (bind_log_extends not_tuner).
        intros a. unfold play_from_file_out, printf, fprintf.
        emits_steps. }
      destruct Hrest as (l2 & Hrest). rewrite Hc in Hrest. cbn [snd] in Hrest.
      exists l2. split; [exact L5 | exact Hrest].
    + assert (Hlog : log_since w
                       (snd ((play_from_file env fd off ;;;
                              call env (Sys_close fd) ;;; ret 0) w3))
                     = [Ev (Sys_open (arg argv 1) O_RDWR); Ev (Sys_fstat fd)]
                         ++ offset_log argc argv off
                         ++ [Ev (Fdopen fd "r");
                             Ev (Fprintf Stderr
                                   "error: could not open file (%m)\n" []);
                             Ev (Sys_close fd)]).
      { apply log_since_app. unfold play_from_file, fprintf.
        rewrite bind_assoc. step Hfdopen. run. unfold ret. cbn [snd].
        pose proof (call_trace _ _ _ _ _ Hfdopen) as L4.
        logs. rewrite dispatch_log. rewrite <- !app_assoc. reflexivity. }
      rewrite Hlog, !existsb_app, offset_log_creates_nothing. reflexivity.
    + exfalso. exact (call_never_runs_out _ _ _ _ Hfdopen).
Qed.

End Dispatch.

Lemma play_live_mode_ignores_replay_result_witness :
  replay_report (-1)
    = [Ev (Fprintf Stderr "error: could not replay device\n" [])] /\
  fst (play_from_stdin (scripted live_replay_fails) 3 (at_mode_test live_argv))
    = Some (-1) /\
  exists w' : World,
    play (scripted live_replay_fails) 3 live_argv w0 = (Some 0, w') /\
    trace w'
      = trace (mkWorld 0 (trace (at_mode_test live_argv)
                          ++ [Ev (Evemu_play Stdin 3 0)]))
          ++ replay_report (-1) ++ [Ev (Sys_close 3)].
Proof.
  apply (play_live_mode_ignores_replay_result
           (scripted live_replay_fails) 3 live_argv 3 2000 (0, S_IFCHR)
           w0 (opened live_argv) (looked_at live_argv)
           (at_mode_test live_argv));
    first [reflexivity | lia | discriminate].
Defined.

Lemma play_file_mode_ignores_replay_result_witness :
  replay_report (-1)
    = [Ev (Fprintf Stderr "error: could not replay device\n" [])] /\
  fst (play_from_file (scripted replay_fails) 3 2000 (at_mode_test file_argv))
    = Some 0 /\
  exists w' : World,
    play (scripted replay_fails) 3 file_argv w0 = (Some 0, w') /\
    trace w' = trace replayed ++ replay_report (-1)
                 ++ [Ev (Evemu_delete 1%nat); Ev (Fclose (Fp 0));
                     Ev (Sys_close 4); Ev (Sys_close 3)].
Proof.
  apply (play_file_mode_ignores_replay_result
           (scripted replay_fails) 3 file_argv 3 2000 (0, S_IFREG)
           w0 (opened file_argv) (looked_at file_argv)
           (at_mode_test file_argv))
    with (fp := Fp 0) (dev := 1%nat) (node_fd := 4) (x := 0)
         (w4 := wrapped) (w5 := created) (w6 := node_opened) (w7 := rewound);
    first [reflexivity | lia | discriminate].
Defined.

Lemma play_selects_mode_by_file_type_witness :
  exists (r : Z) (w4 w' : World),
    call (scripted live_replay_fails) (Evemu_play Stdin 3 0)
         (at_mode_test live_argv) = (Some r, w4) /\
    play (scripted live_replay_fails) 3 live_argv w0 = (Some 0, w') /\
    log_since w0 w'
      = [Ev (Sys_open (arg live_argv 1) O_RDWR); Ev (Sys_fstat 3)]
          ++ offset_log 3 live_argv 2000
          ++ [Ev (Evemu_play Stdin 3 0)] ++ replay_report r
          ++ [Ev (Sys_close 3)] /\
    existsb is_device_creation_call (log_since w0 w') = false.
Proof.
  refine (play_selects_mode_by_file_type
            (scripted live_replay_fails) 3 live_argv 3 2000 (0, S_IFCHR)
            w0 (opened live_argv) (looked_at live_argv)
            (at_mode_test live_argv) _ _ _ _ _ _);
    first [reflexivity | lia | discriminate].
Defined.

(** Against C1 as it is stated: the target is a regular file, so [play]
    takes the file branch, but [fdopen] returns null and the run ends
    without any device-creation call. *)
Lemma play_file_mode_without_device_creation :
  S_ISCHR
    (snd (fst (scripted fdopen_fails _ (Sys_fstat 3)
                 (trace (opened file_argv)) 0))) = false /\
  play (scripted fdopen_fails) 2 file_argv w0
    = (Some 0,
       mkWorld ENOMEM
         [Ev (Sys_open "rec.evemu" O_RDWR); Ev (Sys_fstat 3);
          Ev (Fdopen 3 "r");
          Ev (Fprintf Stderr "error: could not open file (%m)\n" []);
          Ev (Sys_close 3)]) /\
  existsb is_device_creation_call
    (trace (snd (play (scripted fdopen_fails) 2 file_argv w0))) = false.
Proof. repeat split. Qed.

(** ** The create-device command *)

(** [evemu_device] returns 0 or -1 and nothing else. *)
Lemma evemu_device_result (env : Env) (fuel : nat) (fp : Stream)
    (w w' : World) (r : Z) :
  evemu_device env fuel fp w = (Some r, w') -> r = 0 \/ r = -1.
Proof.
  unfold evemu_device.
  destruct (create_device_total env fp w) as (dev & w1 & l & Hc & _).
  step Hc. destruct dev as [d|].
  - unfold bind at 1.
    destruct (open_and_hold_device env fuel d w1) as [[u|] w2];
      [|discriminate].
    run. unfold ret. intros H. inversion H. left. reflexivity.
  - unfold ret. intros H. inversion H. right. reflexivity.
Qed.

(** So the test [ret <= 0] in [device] always holds, and the exit status 0
    of its last line is out of reach: whenever [device] returns, it returns
    -1. *)
Lemma device_never_returns_zero (env : Env) (fuel : nat) (argc : Z)
    (argv : list string) (w w' : World) (r : Z) :
  device env fuel argc argv w = (Some r, w') -> r = -1.
Proof.
  unfold device, fprintf. destruct (argc <? 2).
  - run. unfold ret. intros H. inversion H. reflexivity.
  - call_step. destruct r0 as [fp|].
    + unfold bind at 1.
      destruct (evemu_device env fuel fp w1) as [[rv|] w2] eqn:Hdev;
        [|discriminate].
      destruct (evemu_device_result _ _ _ _ _ _ Hdev) as [-> | ->];
        cbn [Z.leb Z.compare]; run; unfold ret;
        intros H; inversion H; reflexivity.
    + run. unfold ret. intros H. inversion H. reflexivity.
Qed.

(** Whenever [device] returns, the last thing it did was to print a line on
    the error stream. *)
Lemma device_always_reports (env : Env) (fuel : nat) (argc : Z)
    (argv : list string) (w w' : World) (r : Z) :
  device env fuel argc argv w = (Some r, w') ->
  exists (before : World) (format : string) (args : list Arg),
    trace w' = trace before ++ [Ev (Fprintf Stderr format args)].
Proof.
  unfold device, fprintf. destruct (argc <? 2).
  - run. unfold ret. intros H. inversion H; subst. eauto.
  - call_step. destruct r0 as [fp|].
    + unfold bind at 1.
      destruct (evemu_device env fuel fp w1) as [[rv|] w2] eqn:Hdev;
        [|discriminate].
      destruct (evemu_device_result _ _ _ _ _ _ Hdev) as [-> | ->];
        cbn [Z.leb Z.compare]; run; unfold ret;
        intros H; inversion H; subst; eauto.
    + run. unfold ret. intros H. inversion H; subst. eauto.
Qed.

(** C6, at the input on which the code departs from it.  The description
    loads, the device registers, its node opens, the hold loop reads until
    end of file and the descriptor is closed: a clean run.  [device] then
    takes the 0 that [evemu_device] returned for a failure, prints "could
    not create device: 0" on the error stream and returns -1. *)
Theorem device_clean_hold_returns_failure :
  device (scripted all_good) 4 2 ["evemu-device"; "dev.prop"]%string w0
    = (Some (-1),
       mkWorld 0
         [Ev (Fopen "dev.prop" "r"); Ev Evemu_new;
          Ev (Evemu_read 1%nat (Fp 0)); Ev (Evemu_get_name 1%nat);
          Ev (Evemu_create_managed 1%nat); Ev (Evemu_get_devnode 1%nat);
          Ev (Sys_open "/dev/input/event7" O_RDWR);
          Ev (Evemu_get_name 1%nat);
          Ev (Fprintf Stdout "%s: %s\n"
                [AStr "vtest"; AStr "/dev/input/event7"]);
          Ev (Fflush Stdout);
          Ev (Sys_read 4 256); Ev (Sys_read 4 256); Ev (Sys_read 4 256);
          Ev (Sys_read 4 256); Ev (Sys_close 4);
          Ev (Evemu_delete 1%nat);
          Ev (Fprintf Stderr "error: could not create device: %d\n"
                [AInt 0])]) /\
  fst (evemu_device (scripted all_good) 4 (Fp 0)
         (mkWorld 0 [Ev (Fopen "dev.prop" "r")])) = Some 0.
Proof. split; reflexivity. Qed.

(** The tuner when the scheduler call is refused: the refusal is reported
    with [perror], and memory is locked all the same. *)
Example setup_realtime_cpu_without_privilege :
  setup_realtime_cpu
    (scripted (mkScript None 0 "" None 0 0 0 0 (0, 0) None None [] 1
                 (0, -1, 0))) w0
  = (Some tt,
     mkWorld EPERM
       [Ev (Sched_setaffinity 0 128 8);
        Ev (Fprintf Stdout "✅ CPU pinned to core 3\n" []);
        Ev (Sched_setscheduler 0 SCHED_FIFO 99);
        Ev (Perror "sched_setscheduler failed (are you root?)");
        Ev (Mlockall 3);
        Ev (Fprintf Stdout "✅ Memory locked (no paging)\n" [])]).
Proof. reflexivity. Qed.

(** * Further properties of the code *)

Lemma exists_with {A : Type} (P : Prop) (Q : A -> Prop) :
  P -> (exists a : A, Q a) -> exists a : A, P /\ Q a.
Proof. intros HP (a & HQ). exists a. split; assumption. Qed.

(** ** open_evemu_device *)

(** X1. When the library has no node for the device, [open_evemu_device]
    says so on the error stream and returns -1; it does not call [open]. *)
Theorem open_evemu_device_without_node
    (env : Env) (dev : Dev) (w w1 : World) :
  call env (Evemu_get_devnode dev) w = (Some None, w1) ->
  exists w' : World,
    open_evemu_device env dev w = (Some (-1), w') /\
    trace w' = trace w ++ [Ev (Evemu_get_devnode dev);
                           Ev (Fprintf Stderr
                                 "can not determine device node\n" [])].
Proof.
  intros Hnode. unfold open_evemu_device, fprintf. step Hnode.
  pose proof (call_trace _ _ _ _ _ Hnode) as L1.
  run. unfold ret. eexists. split; [reflexivity|]. logs. reflexivity.
Qed.

Lemma open_evemu_device_without_node_witness :
  exists w' : World,
    open_evemu_device (with_devnode None (scripted all_good)) 1%nat w0
      = (Some (-1), w') /\
    trace w' = trace w0 ++ [Ev (Evemu_get_devnode 1%nat);
                            Ev (Fprintf Stderr
                                  "can not determine device node\n" [])].
Proof.
  apply (open_evemu_device_without_node
           (with_devnode None (scripted all_good)) 1%nat w0
           (mkWorld 0 [Ev (Evemu_get_devnode 1%nat)])).
  reflexivity.
Defined.

(** X2. When [open] on the node fails, with any negative result,
    [open_evemu_device] returns -1 after one line on the error stream,
    which carries the node path and the text [strerror] gives for the
    [errno] that [open] left.  The number printed before them is that
    [errno] when the compiler reads it before calling [strerror], and
    the [errno] that [strerror] left when it reads it after: the same
    number whenever [strerror] leaves [errno] alone.  Nothing goes to
    standard output. *)
Theorem open_evemu_device_reports_open_error
    (env : Env) (dev : Dev) (node : string) (fd : Z) (w w1 w2 : World) :
  call env (Evemu_get_devnode dev) w = (Some (Some node), w1) ->
  call env (Sys_open node O_RDWR) w1 = (Some fd, w2) ->
  fd < 0 ->
  exists (msg : string) (e : Z) (w3 w' : World),
    call env (Strerror (errno w2)) w2 = (Some msg, w3) /\
    (e = errno w2 \/ e = errno w3) /\
    open_evemu_device env dev w = (Some (-1), w') /\
    trace w' = trace w ++ [Ev (Evemu_get_devnode dev);
                           Ev (Sys_open node O_RDWR);
                           Ev (Strerror (errno w2));
                           Ev (Fprintf Stderr "error %d opening %s: %s\n"
                                 [AInt e; AStr node; AStr msg])].
Proof.
  intros Hnode Hopen Hfd.
  destruct (call_ex env (Strerror (errno w2)) w2) as (msg & w3 & Hmsg & L3).
  pose proof (call_trace _ _ _ _ _ Hnode) as L1.
  pose proof (call_trace _ _ _ _ _ Hopen) as L2.
  unfold open_evemu_device, fprintf. step Hnode. step Hopen.
  replace (fd <? 0) with true by (symmetry; apply Z.ltb_lt; exact Hfd).
  rewrite bind_unspecified_order.
  destruct (fst (env bool Strerror_evaluated_first (trace w2) (errno w2))).
  - rewrite bind_assoc, bind_get_errno. step Hmsg. rewrite bind_get_errno.
    exists msg, (errno w3), w3.
    apply exists_with; [exact Hmsg|].
    apply exists_with; [right; reflexivity|].
    run. unfold ret. eexists. split; [reflexivity|]. logs. reflexivity.
  - rewrite bind_get_errno, bind_assoc, bind_get_errno. step Hmsg.
    exists msg, (errno w2), w3.
    apply exists_with; [exact Hmsg|].
    apply exists_with; [left; reflexivity|].
    run. unfold ret. eexists. split; [reflexivity|]. logs. reflexivity.
Qed.

Lemma open_evemu_device_reports_open_error_witness :
  exists (msg : string) (e : Z) (w3 w' : World),
    call (with_open "/dev/input/event7" (-1) 13 (scripted all_good))
         (Strerror 13)
         (mkWorld 13 [Ev (Evemu_get_devnode 1%nat);
                      Ev (Sys_open "/dev/input/event7" O_RDWR)])
      = (Some msg, w3) /\
    (e = 13 \/ e = errno w3) /\
    open_evemu_device
      (with_open "/dev/input/event7" (-1) 13 (scripted all_good)) 1%nat w0
      = (Some (-1), w') /\
    trace w' = trace w0 ++ [Ev (Evemu_get_devnode 1%nat);
                            Ev (Sys_open "/dev/input/event7" O_RDWR);
                            Ev (Strerror 13);
                            Ev (Fprintf Stderr "error %d opening %s: %s\n"
                                  [AInt e; AStr "/dev/input/event7";
                                   AStr msg])].
Proof.
  apply (open_evemu_device_reports_open_error
           (with_open "/dev/input/event7" (-1) 13 (scripted all_good))
           1%nat "/dev/input/event7" (-1) w0
           (mkWorld 0 [Ev (Evemu_get_devnode 1%nat)])
           (mkWorld 13 [Ev (Evemu_get_devnode 1%nat);
                        Ev (Sys_open "/dev/input/event7" O_RDWR)]));
    first [reflexivity | lia].
Defined.

(** X3. When [open] succeeds, [open_evemu_device] returns the descriptor
    [open] gave, after printing the device name and the node path on
    standard output and flushing it. *)
Theorem open_evemu_device_returns_descriptor
    (env : Env) (dev : Dev) (node : string) (fd : Z) (w w1 w2 : World) :
  call env (Evemu_get_devnode dev) w = (Some (Some node), w1) ->
  call env (Sys_open node O_RDWR) w1 = (Some fd, w2) ->
  0 <= fd ->
  exists (name : string) (w3 w' : World),
    call env (Evemu_get_name dev) w2 = (Some name, w3) /\
    open_evemu_device env dev w = (Some fd, w') /\
    trace w' = trace w ++ [Ev (Evemu_get_devnode dev);
                           Ev (Sys_open node O_RDWR);
                           Ev (Evemu_get_name dev);
                           Ev (Fprintf Stdout "%s: %s\n"
                                 [AStr name; AStr node]);
                           Ev (Fflush Stdout)].
Proof.
  intros Hnode Hopen Hfd.
  destruct (call_ex env (Evemu_get_name dev) w2) as (name & w3 & Hname & L3).
  exists name, w3. apply exists_with; [exact Hname|].
  unfold open_evemu_device, fprintf. step Hnode. step Hopen.
  replace (fd <? 0) with false by (symmetry; apply Z.ltb_ge; exact Hfd).
  step Hname.
  pose proof (call_trace _ _ _ _ _ Hnode) as L1.
  pose proof (call_trace _ _ _ _ _ Hopen) as L2.
  run. unfold ret. eexists. split; [reflexivity|].
  logs. reflexivity.
Qed.

Lemma open_evemu_device_returns_descriptor_witness :
  exists (name : string) (w3 w' : World),
    call (scripted all_good) (Evemu_get_name 1%nat)
         (mkWorld 0 [Ev (Evemu_get_devnode 1%nat);
                     Ev (Sys_open "/dev/input/event7" O_RDWR)])
      = (Some name, w3) /\
    open_evemu_device (scripted all_good) 1%nat w0 = (Some 4, w') /\
    trace w' = trace w0 ++ [Ev (Evemu_get_devnode 1%nat);
                            Ev (Sys_open "/dev/input/event7" O_RDWR);
                            Ev (Evemu_get_name 1%nat);
                            Ev (Fprintf Stdout "%s: %s\n"
                                  [AStr name; AStr "/dev/input/event7"]);
                            Ev (Fflush Stdout)].
Proof.
  apply (open_evemu_device_returns_descriptor
           (scripted all_good) 1%nat "/dev/input/event7" 4 w0
           (mkWorld 0 [Ev (Evemu_get_devnode 1%nat)])
           (mkWorld 0 [Ev (Evemu_get_devnode 1%nat);
                       Ev (Sys_open "/dev/input/event7" O_RDWR)]));
    first [reflexivity | lia].
Defined.

(** Replaces [log_since] of the worlds at hand by the list of calls that
    [call_step] has collected. *)
Ltac since :=
  unfold log_since; cbn [trace]; logs;
  rewrite skipn_app, Nat.sub_diag, skipn_all; cbn [app skipn].

(** X4. The result of [open_evemu_device] is either -1, and then it has
    written on the error stream, or a descriptor that is not negative,
    and then it has not: a negative result of [open] other than -1 is
    turned into -1. *)
Theorem open_evemu_device_fails_with_minus_one
    (env : Env) (dev : Dev) (r : Z) (w w' : World) :
  open_evemu_device env dev w = (Some r, w') ->
  r = -1 /\ existsb is_stderr_call (log_since w w') = true \/
  0 <= r /\ existsb is_stderr_call (log_since w w') = false.
Proof.
  unfold open_evemu_device, fprintf. call_step. destruct r0 as [node|].
  - call_step. destruct (r0 <? 0) eqn:Hfd.
    + run; unfold ret; intros H; inversion H; subst; left;
        (split; [reflexivity|]); since; reflexivity.
    + run. unfold ret. intros H. inversion H; subst. right.
      split; [apply Z.ltb_ge; exact Hfd|].
      since. reflexivity.
  - run. unfold ret. intros H. inversion H; subst. left.
    split; [reflexivity|].
    since. reflexivity.
Qed.

Lemma open_evemu_device_fails_with_minus_one_witness :
  -1 = -1 /\
  existsb is_stderr_call
    (log_since w0
       (snd (open_evemu_device
               (with_open "/dev/input/event7" (-13) 13 (scripted all_good))
               1%nat w0))) = true \/
  0 <= -1 /\
  existsb is_stderr_call
    (log_since w0
       (snd (open_evemu_device
               (with_open "/dev/input/event7" (-13) 13 (scripted all_good))
               1%nat w0))) = false.
Proof.
  apply (open_evemu_device_fails_with_minus_one
           (with_open "/dev/input/event7" (-13) 13 (scripted all_good))
           1%nat (-1) w0).
  reflexivity.
Defined.

(** ** open_and_hold_device *)

(** X5. As long as the reads return positive counts, within the range of
    [int], the hold loop neither returns nor closes the descriptor: with a
    budget of [fuel] reads, all of them such, [open_and_hold_device] is
    still reading when the budget ends, and the log after the open holds
    these reads only. *)
Theorem open_and_hold_device_holds_while_reads_succeed
    (env : Env) (dev : Dev) (fd : Z) (fuel : nat) (w_start w : World) :
  open_evemu_device env dev w_start = (Some fd, w) ->
  0 <= fd ->
  (forall i : nat, (i < fuel)%nat ->
     0 < read_count env fd (after_reads env fd i w) <= INT_MAX) ->
  fst (open_and_hold_device env fuel dev w_start) = None /\
  trace (snd (open_and_hold_device env fuel dev w_start))
    = trace w ++ repeat (Ev (Sys_read fd 256)) fuel.
Proof.
  intros Hopen Hfd Hpos.
  assert (Hrun : open_and_hold_device env fuel dev w_start
                 = (None, after_reads env fd fuel w)).
  { unfold open_and_hold_device. step Hopen.
    replace (fd <? 0) with false by (symmetry; apply Z.ltb_ge; exact Hfd).
    unfold bind at 1. rewrite (hold_loop_out_of_fuel env fd fuel w Hpos).
    reflexivity. }
  rewrite Hrun. split; [reflexivity|]. apply after_reads_trace.
Qed.

Lemma open_and_hold_device_holds_while_reads_succeed_witness :
  fst (open_and_hold_device (scripted all_good) 3 1%nat w0) = None /\
  trace (snd (open_and_hold_device (scripted all_good) 3 1%nat w0))
    = trace (snd (open_evemu_device (scripted all_good) 1%nat w0))
        ++ repeat (Ev (Sys_read 4 256)) 3.
Proof.
  apply (open_and_hold_device_holds_while_reads_succeed
           (scripted all_good) 1%nat 4 3 w0).
  - reflexivity.
  - lia.
  - intros i Hi.
    destruct i as [|[|[|i]]]; [| | |lia];
      (split; vm_compute; [reflexivity | discriminate]).
Defined.

(** ** create_device *)

Lemma create_device_read_negative_cleans_up_witness :
  create_device (with_read (-5) EINVAL (scripted all_good)) (Fp 0) w0
    = (Some None,
       mkWorld
         (errno (mkWorld EINVAL [Ev Evemu_new; Ev (Evemu_read 1%nat (Fp 0))]))
         (trace (mkWorld EBADF [Ev Evemu_new; Ev (Evemu_read 1%nat (Fp 0));
                                Ev (Evemu_destroy 1%nat)]))) /\
  trace (mkWorld EBADF [Ev Evemu_new; Ev (Evemu_read 1%nat (Fp 0));
                        Ev (Evemu_destroy 1%nat)])
    = trace w0 ++ [Ev Evemu_new; Ev (Evemu_read 1%nat (Fp 0));
                   Ev (Evemu_destroy 1%nat)].
Proof.
  apply (create_device_read_negative_cleans_up
           (with_read (-5) EINVAL (scripted all_good)) (Fp 0) 1%nat (-5) w0
           (mkWorld 0 [Ev Evemu_new]));
    first [reflexivity | lia].
Defined.

(** X7. After a good load of a named description, any nonzero result of
    [evemu_create_managed], positive ones included, makes [create_device]
    destroy the handle and return null, with the [errno] that
    [evemu_create_managed] left and not the one of the cleanup. *)
Theorem create_device_nonzero_registration_is_failure
    (env : Env) (fp : Stream) (d : Dev) (r r' : Z) (name : string)
    (w w1 w2 w3 w4 w5 : World) :
  call env Evemu_new w = (Some (Some d), w1) ->
  call env (Evemu_read d fp) w1 = (Some r, w2) ->
  0 < r ->
  call env (Evemu_get_name d) w2 = (Some name, w3) ->
  name <> ""%string ->
  call env (Evemu_create_managed d) w3 = (Some r', w4) ->
  r' <> 0 ->
  call env (Evemu_destroy d) w4 = (Some tt, w5) ->
  create_device env fp w = (Some None, mkWorld (errno w4) (trace w5)) /\
  trace w5 = trace w ++ [Ev Evemu_new; Ev (Evemu_read d fp);
                         Ev (Evemu_get_name d); Ev (Evemu_create_managed d);
                         Ev (Evemu_destroy d)].
Proof.
  intros Hnew Hread Hr Hname Hne Hreg Hr' Hdestroy. split.
  - unfold create_device. step Hnew. step Hread.
    replace (r <=? 0) with false by (symmetry; apply Z.leb_gt; lia).
    step Hname.
    destruct name as [|a name']; [congruence|]. cbn [String.length Nat.eqb].
    rewrite bind_ret. step Hreg. unfold create_device_out.
    replace (r' =? 0) with false by (symmetry; apply Z.eqb_neq; exact Hr').
    cbn [negb]. rewrite bind_get_errno. step Hdestroy. reflexivity.
  - log_of Hdestroy. log_of Hreg. log_of Hname. log_of Hread. log_of Hnew.
    log_norm. reflexivity.
Qed.

Lemma create_device_nonzero_registration_is_failure_witness :
  create_device (with_managed 5 17 (scripted all_good)) (Fp 0) w0
    = (Some None,
       mkWorld
         (errno (mkWorld 17 [Ev Evemu_new; Ev (Evemu_read 1%nat (Fp 0));
                             Ev (Evemu_get_name 1%nat);
                             Ev (Evemu_create_managed 1%nat)]))
         (trace (mkWorld EBADF
                   [Ev Evemu_new; Ev (Evemu_read 1%nat (Fp 0));
                    Ev (Evemu_get_name 1%nat);
                    Ev (Evemu_create_managed 1%nat);
                    Ev (Evemu_destroy 1%nat)]))) /\
  trace (mkWorld EBADF
           [Ev Evemu_new; Ev (Evemu_read 1%nat (Fp 0));
            Ev (Evemu_get_name 1%nat); Ev (Evemu_create_managed 1%nat);
            Ev (Evemu_destroy 1%nat)])
    = trace w0 ++ [Ev Evemu_new; Ev (Evemu_read 1%nat (Fp 0));
                   Ev (Evemu_get_name 1%nat);
                   Ev (Evemu_create_managed 1%nat);
                   Ev (Evemu_destroy 1%nat)].
Proof.
  apply (create_device_nonzero_registration_is_failure
           (with_managed 5 17 (scripted all_good)) (Fp 0) 1%nat 1 5 "vtest"
           w0 (mkWorld 0 [Ev Evemu_new])
           (mkWorld 0 [Ev Evemu_new; Ev (Evemu_read 1%nat (Fp 0))])
           (mkWorld 0 [Ev Evemu_new; Ev (Evemu_read 1%nat (Fp 0));
                       Ev (Evemu_get_name 1%nat)]));
    first [reflexivity | lia | discriminate].
Defined.

(** X8. A description that loads with a name of its own keeps it:
    [create_device] goes from [evemu_get_name] straight to the
    registration, without [getpid] or [evemu_set_name], and when the
    registration returns 0 it returns the handle of [evemu_new] in the
    world the registration left. *)
Theorem create_device_keeps_given_name
    (env : Env) (fp : Stream) (d : Dev) (r : Z) (name : string)
    (w w1 w2 w3 w4 : World) :
  call env Evemu_new w = (Some (Some d), w1) ->
  call env (Evemu_read d fp) w1 = (Some r, w2) ->
  0 < r ->
  call env (Evemu_get_name d) w2 = (Some name, w3) ->
  name <> ""%string ->
  call env (Evemu_create_managed d) w3 = (Some 0, w4) ->
  create_device env fp w = (Some (Some d), w4) /\
  trace w4 = trace w ++ [Ev Evemu_new; Ev (Evemu_read d fp);
                         Ev (Evemu_get_name d); Ev (Evemu_create_managed d)].
Proof.
  intros Hnew Hread Hr Hname Hne Hreg. split.
  - unfold create_device. step Hnew. step Hread.
    replace (r <=? 0) with false by (symmetry; apply Z.leb_gt; lia).
    step Hname.
    destruct name as [|a name']; [congruence|]. cbn [String.length Nat.eqb].
    rewrite bind_ret. step Hreg. reflexivity.
  - log_of Hreg. log_of Hname. log_of Hread. log_of Hnew.
    log_norm. reflexivity.
Qed.

Lemma create_device_keeps_given_name_witness :
  create_device (scripted all_good) (Fp 0) w0
    = (Some (Some 1%nat),
       mkWorld 0 [Ev Evemu_new; Ev (Evemu_read 1%nat (Fp 0));
                  Ev (Evemu_get_name 1%nat);
                  Ev (Evemu_create_managed 1%nat)]) /\
  trace (mkWorld 0 [Ev Evemu_new; Ev (Evemu_read 1%nat (Fp 0));
                    Ev (Evemu_get_name 1%nat);
                    Ev (Evemu_create_managed 1%nat)])
    = trace w0 ++ [Ev Evemu_new; Ev (Evemu_read 1%nat (Fp 0));
                   Ev (Evemu_get_name 1%nat);
                   Ev (Evemu_create_managed 1%nat)].
Proof.
  apply (create_device_keeps_given_name
           (scripted all_good) (Fp 0) 1%nat 1 "vtest"
           w0 (mkWorld 0 [Ev Evemu_new])
           (mkWorld 0 [Ev Evemu_new; Ev (Evemu_read 1%nat (Fp 0))])
           (mkWorld 0 [Ev Evemu_new; Ev (Evemu_read 1%nat (Fp 0));
                       Ev (Evemu_get_name 1%nat)]));
    first [reflexivity | lia | discriminate].
Defined.

(** X9. [create_device] never hands out a handle it has destroyed: it
    always returns; a handle it returns is the one [evemu_new] gave and
    the log of the call holds no [evemu_destroy]; and when it returns
    null, either [evemu_new] was its only call or it has called
    [evemu_destroy]. *)
Theorem create_device_never_returns_destroyed_handle
    (env : Env) (fp : Stream) (w : World) :
  exists (res : option Dev) (w' : World),
    create_device env fp w = (Some res, w') /\
    match res with
    | Some d =>
        fst (call env Evemu_new w) = Some (Some d) /\
        existsb is_destroy_call (log_since w w') = false
    | None =>
        log_since w w' = [Ev Evemu_new] \/
        existsb is_destroy_call (log_since w w') = true
    end.
Proof.
  unfold create_device. call_step. rewrite Hcall. cbn [fst].
  destruct r as [d|].
  - call_step. destruct (r <=? 0).
    + unfold create_device_out. destruct (negb (r =? 0)).
      * run. unfold ret, set_errno. do 2 eexists.
        split; [reflexivity|]. right. since. reflexivity.
      * unfold ret. do 2 eexists. split; [reflexivity|].
        split; [reflexivity|]. since. reflexivity.
    + call_step. destruct (String.length r0 =? 0)%nat.
      * run. unfold create_device_out.
        match goal with |- context [negb ?b] => destruct b end; cbn [negb].
        -- unfold ret. do 2 eexists. split; [reflexivity|].
           split; [reflexivity|]. since. reflexivity.
        -- run. unfold ret, set_errno. do 2 eexists.
           split; [reflexivity|]. right. since. reflexivity.
      * run. unfold create_device_out.
        match goal with |- context [negb ?b] => destruct b end; cbn [negb].
        -- unfold ret. do 2 eexists. split; [reflexivity|].
           split; [reflexivity|]. since. reflexivity.
        -- run. unfold ret, set_errno. do 2 eexists.
           split; [reflexivity|]. right. since. reflexivity.
  - unfold create_device_out, ret. do 2 eexists. split; [reflexivity|].
    left. since. reflexivity.
Qed.

(** ** evemu_device and device *)

(** X10. A node that cannot be opened does not make [evemu_device] fail:
    once [create_device] has returned a handle, a negative result of
    [open_evemu_device] leads straight to [evemu_delete] on that handle,
    with no read and no close, and [evemu_device] returns 0, whatever the
    loop budget. *)
Theorem evemu_device_ignores_node_open_failure
    (env : Env) (fuel : nat) (fp : Stream) (d : Dev) (fd : Z)
    (w w1 w2 : World) :
  create_device env fp w = (Some (Some d), w1) ->
  open_evemu_device env d w1 = (Some fd, w2) ->
  fd < 0 ->
  exists w3 : World,
    evemu_device env fuel fp w = (Some 0, w3) /\
    trace w3 = trace w2 ++ [Ev (Evemu_delete d)].
Proof.
  intros Hcreate Hopen Hfd.
  unfold evemu_device, open_and_hold_device. step Hcreate.
  rewrite bind_assoc. step Hopen.
  replace (fd <? 0) with true by (symmetry; apply Z.ltb_lt; exact Hfd).
  run. unfold ret. eexists. split; [reflexivity|]. assumption.
Qed.

Lemma evemu_device_ignores_node_open_failure_witness :
  exists w3 : World,
    evemu_device (with_devnode None (scripted all_good)) 0 (Fp 0) w0
      = (Some 0, w3) /\
    trace w3
      = trace (snd (open_evemu_device (with_devnode None (scripted all_good))
                      1%nat
                      (snd (create_device
                              (with_devnode None (scripted all_good))
                              (Fp 0) w0))))
          ++ [Ev (Evemu_delete 1%nat)].
Proof.
  apply (evemu_device_ignores_node_open_failure
           (with_devnode None (scripted all_good)) 0 (Fp 0) 1%nat (-1) w0
           (snd (create_device (with_devnode None (scripted all_good))
                   (Fp 0) w0)));
    first [reflexivity | lia].
Defined.

(** X11. Without a description file on the command line ([argc < 2])
    [device] prints its usage line with [argv[0]] on the error stream and
    returns -1; it opens nothing and creates nothing. *)
Theorem device_usage_error
    (env : Env) (fuel : nat) (argc : Z) (argv : list string) (w : World) :
  argc < 2 ->
  exists w' : World,
    device env fuel argc argv w = (Some (-1), w') /\
    trace w' = trace w ++ [Ev (Fprintf Stderr "Usage: %s <dev.prop>\n"
                                 [AStr (arg argv 0)])].
Proof.
  intros Hargc. unfold device, fprintf.
  replace (argc <? 2) with true by (symmetry; apply Z.ltb_lt; exact Hargc).
  run. unfold ret. eexists. split; [reflexivity|]. assumption.
Qed.

Lemma device_usage_error_witness :
  exists w' : World,
    device (scripted all_good) 4 1 ["evemu-device"]%string w0
      = (Some (-1), w') /\
    trace w' = trace w0 ++ [Ev (Fprintf Stderr "Usage: %s <dev.prop>\n"
                                  [AStr (arg ["evemu-device"]%string 0)])].
Proof.
  apply (device_usage_error (scripted all_good) 4 1 ["evemu-device"]%string w0).
  lia.
Defined.

(** X12. When the description file cannot be opened, [device] prints its
    message in the world [fopen] left, so that [%m] shows the [errno] of
    [fopen], and returns -1 without creating a device. *)
Theorem device_reports_fopen_failure
    (env : Env) (fuel : nat) (argc : Z) (argv : list string) (w w1 : World) :
  2 <= argc ->
  call env (Fopen (arg argv 1) "r") w = (Some None, w1) ->
  exists (x : Z) (w' : World),
    call env (Fprintf Stderr "error: could not open file (%m)\n" []) w1
      = (Some x, w') /\
    device env fuel argc argv w = (Some (-1), w').
Proof.
  intros Hargc Hfopen.
  destruct (call_ex env (Fprintf Stderr "error: could not open file (%m)\n" [])
              w1) as (x & w' & Hprint & _).
  exists x, w'. split; [exact Hprint|].
  unfold device, fprintf.
  replace (argc <? 2) with false by (symmetry; apply Z.ltb_ge; exact Hargc).
  step Hfopen. step Hprint. reflexivity.
Qed.

Lemma device_reports_fopen_failure_witness :
  exists (x : Z) (w' : World),
    call (with_fopen None (scripted all_good))
         (Fprintf Stderr "error: could not open file (%m)\n" [])
         (mkWorld ENOENT [Ev (Fopen "dev.prop" "r")])
      = (Some x, w') /\
    device (with_fopen None (scripted all_good)) 4 2 device_argv w0
      = (Some (-1), w').
Proof.
  apply (device_reports_fopen_failure
           (with_fopen None (scripted all_good)) 4 2 device_argv w0);
    first [reflexivity | lia].
Defined.

Lemma hold_loop_not_fclose (env : Env) (fd : Z) (fuel : nat) :
  emits not_fclose (hold_loop env fuel fd).
Proof.
  induction fuel as [|fuel IH]; cbn [hold_loop]; emits_steps. exact IH.
Qed.

Lemma create_device_out_not_fclose (env : Env) (r : Z) (dev : option Dev) :
  emits not_fclose (create_device_out env r dev).
Proof. unfold create_device_out. emits_steps. Qed.

Lemma evemu_device_not_fclose (env : Env) (fuel : nat) (fp : Stream) :
  emits not_fclose (evemu_device env fuel fp).
Proof.
  unfold evemu_device, open_and_hold_device, fprintf.
  emits_steps;
    first [ apply create_device_out_not_fclose
          | apply hold_loop_not_fclose ].
Qed.

Lemma not_fclose_existsb (l : list Event) :
  Forall not_fclose l -> existsb is_fclose_call l = false.
Proof.
  induction 1 as [|e l He _ IH]; [reflexivity|].
  cbn [existsb]. rewrite He, IH. reflexivity.
Qed.

(** X13. Whenever [device] returns, it returns -1, the last thing it did
    was to print a line on the error stream, and it has not closed the
    description stream: its log holds no [fclose].  The [return 0] of
    its last line, and the [fclose] before it, are never reached, since
    [evemu_device] returns 0 or -1 and both satisfy [ret <= 0]. *)
Theorem device_returns_minus_one_after_reporting
    (env : Env) (fuel : nat) (argc : Z) (argv : list string)
    (w w' : World) (r : Z) :
  device env fuel argc argv w = (Some r, w') ->
  r = -1 /\
  (exists (before : World) (format : string) (args : list Arg),
     trace w' = trace before ++ [Ev (Fprintf Stderr format args)]) /\
  existsb is_fclose_call (log_since w w') = false.
Proof.
  intros Hdev.
  split; [exact (device_never_returns_zero _ _ _ _ _ _ _ Hdev)|].
  split; [exact (device_always_reports _ _ _ _ _ _ _ Hdev)|].
  revert Hdev. unfold device, fprintf. destruct (argc <? 2).
  - run. unfold ret. intros H. inversion H; subst. since. reflexivity.
  - call_step. destruct r0 as [fp|].
    + unfold bind at 1.
      destruct (evemu_device_not_fclose env fuel fp w1) as (l & Hl & HP).
      destruct (evemu_device env fuel fp w1) as [[rv|] w2] eqn:Hdev;
        [|discriminate].
      cbn [snd] in Hl.
      destruct (evemu_device_result _ _ _ _ _ _ Hdev) as [-> | ->];
        cbn [Z.leb Z.compare]; run; unfold ret;
        intros H; inversion H; subst;
        unfold log_since; rewrite Hlog0, Hl, Hlog;
        rewrite <- !app_assoc;
        rewrite skipn_app, Nat.sub_diag, skipn_all; cbn [app skipn];
        cbn [existsb is_fclose_call orb];
        rewrite existsb_app, (not_fclose_existsb l HP); reflexivity.
    + run. unfold ret. intros H. inversion H; subst. since. reflexivity.
Qed.

Lemma device_returns_minus_one_after_reporting_witness :
  -1 = -1 /\
  (exists (before : World) (format : string) (args : list Arg),
     trace (snd (device (scripted all_good) 4 2 device_argv w0))
       = trace before ++ [Ev (Fprintf Stderr format args)]) /\
  existsb is_fclose_call
    (log_since w0 (snd (device (scripted all_good) 4 2 device_argv w0)))
    = false.
Proof.
  apply (device_returns_minus_one_after_reporting
           (scripted all_good) 4 2 device_argv w0
           (snd (device (scripted all_good) 4 2 device_argv w0)) (-1)).
  reflexivity.
Defined.

(** ** play *)

(** X14. With no target, or with more than a target and an offset
    ([argc < 2] or [argc > 3]), [play] prints its four usage lines on
    the error stream and returns -1 without opening anything. *)
Theorem play_usage_error
    (env : Env) (argc : Z) (argv : list string) (w : World) :
  argc < 2 \/ 3 < argc ->
  exists w' : World,
    play env argc argv w = (Some (-1), w') /\
    trace w'
      = trace w
          ++ [Ev (Fprintf Stderr "Usage: %s <device>|<recording>\n"
                    [AStr (arg argv 0)]);
              Ev (Fprintf Stderr "\n" []);
              Ev (Fprintf Stderr
                    "If the argument is an input event node,\nevent data is read from standard input.\n" []);
              Ev (Fprintf Stderr
                    "If the argument is an evemu recording,\nthe device is created and the event data isread from the same device.\n" [])].
Proof.
  intros Hargc. unfold play, fprintf.
  replace ((argc <? 2) || (argc >? 3)) with true.
  2:{ symmetry. apply orb_true_iff. rewrite Z.gtb_ltb.
      destruct Hargc; [left | right]; apply Z.ltb_lt; assumption. }
  run. unfold ret. eexists. split; [reflexivity|]. logs. reflexivity.
Qed.

Lemma play_usage_error_witness :
  exists w' : World,
    play (scripted all_good) 4 ["evemu-play"; "a"; "1"; "2"]%string w0
      = (Some (-1), w') /\
    trace w'
      = trace w0
          ++ [Ev (Fprintf Stderr "Usage: %s <device>|<recording>\n"
                    [AStr (arg ["evemu-play"; "a"; "1"; "2"]%string 0)]);
              Ev (Fprintf Stderr "\n" []);
              Ev (Fprintf Stderr
                    "If the argument is an input event node,\nevent data is read from standard input.\n" []);
              Ev (Fprintf Stderr
                    "If the argument is an evemu recording,\nthe device is created and the event data isread from the same device.\n" [])].
Proof.
  apply (play_usage_error (scripted all_good) 4
           ["evemu-play"; "a"; "1"; "2"]%string w0).
  right. lia.
Defined.

(** X15. When the target cannot be opened, [play] prints its message in
    the world [open] left, so that [%m] shows the [errno] of [open], and
    returns -1; it calls neither [fstat] nor [close]. *)
Theorem play_reports_open_failure
    (env : Env) (argc : Z) (argv : list string) (fd : Z) (w w1 : World) :
  2 <= argc <= 3 ->
  call env (Sys_open (arg argv 1) O_RDWR) w = (Some fd, w1) ->
  fd < 0 ->
  exists (x : Z) (w' : World),
    call env (Fprintf Stderr "error: could not open file or device (%m)\n" [])
         w1 = (Some x, w') /\
    play env argc argv w = (Some (-1), w').
Proof.
  intros Hargc Hopen Hfd.
  destruct (call_ex env
              (Fprintf Stderr "error: could not open file or device (%m)\n" [])
              w1) as (x & w' & Hprint & _).
  exists x, w'. split; [exact Hprint|].
  unfold play, fprintf.
  replace ((argc <? 2) || (argc >? 3)) with false.
  2:{ symmetry. apply orb_false_iff. split.
      - apply Z.ltb_ge. lia.
      - rewrite Z.gtb_ltb. apply Z.ltb_ge. lia. }
  step Hopen.
  replace (fd <? 0) with true by (symmetry; apply Z.ltb_lt; exact Hfd).
  step Hprint. reflexivity.
Qed.

Lemma play_reports_open_failure_witness :
  exists (x : Z) (w' : World),
    call (with_open "rec.evemu" (-1) ENOENT (scripted all_good))
         (Fprintf Stderr "error: could not open file or device (%m)\n" [])
         (mkWorld ENOENT [Ev (Sys_open "rec.evemu" O_RDWR)])
      = (Some x, w') /\
    play (with_open "rec.evemu" (-1) ENOENT (scripted all_good)) 3 file_argv w0
      = (Some (-1), w').
Proof.
  apply (play_reports_open_failure
           (with_open "rec.evemu" (-1) ENOENT (scripted all_good))
           3 file_argv (-1) w0);
    first [reflexivity | lia].
Defined.

(** X16. When [fstat] on the opened target returns -1, [play] prints its
    message and returns -1 with the target still open: the log from the
    start is the open, the [fstat] and the message, and no [close]. *)
Theorem play_leaves_target_open_on_fstat_failure
    (env : Env) (argc : Z) (argv : list string) (fd : Z) (st : Z * Z)
    (w w1 w2 : World) :
  2 <= argc <= 3 ->
  call env (Sys_open (arg argv 1) O_RDWR) w = (Some fd, w1) ->
  0 <= fd ->
  call env (Sys_fstat fd) w1 = (Some st, w2) ->
  fst st = -1 ->
  exists w' : World,
    play env argc argv w = (Some (-1), w') /\
    trace w'
      = trace w ++ [Ev (Sys_open (arg argv 1) O_RDWR); Ev (Sys_fstat fd);
                    Ev (Fprintf Stderr
                          "error: failed to look at file (%m)\n" [])].
Proof.
  intros Hargc Hopen Hfd Hfstat Hst.
  unfold play, fprintf.
  replace ((argc <? 2) || (argc >? 3)) with false.
  2:{ symmetry. apply orb_false_iff. split.
      - apply Z.ltb_ge. lia.
      - rewrite Z.gtb_ltb. apply Z.ltb_ge. lia. }
  step Hopen.
  replace (fd <? 0) with false by (symmetry; apply Z.ltb_ge; exact Hfd).
  step Hfstat. rewrite Hst. cbn [Z.eqb Pos.eqb].
  pose proof (call_trace _ _ _ _ _ Hopen) as L1.
  pose proof (call_trace _ _ _ _ _ Hfstat) as L2.
  run. unfold ret. eexists. split; [reflexivity|]. logs. reflexivity.
Qed.

Lemma play_leaves_target_open_on_fstat_failure_witness :
  exists w' : World,
    play (with_fstat (-1) 0 EBADF (scripted all_good)) 2 file_argv w0
      = (Some (-1), w') /\
    trace w'
      = trace w0 ++ [Ev (Sys_open (arg file_argv 1) O_RDWR); Ev (Sys_fstat 3);
                     Ev (Fprintf Stderr
                           "error: failed to look at file (%m)\n" [])].
Proof.
  apply (play_leaves_target_open_on_fstat_failure
           (with_fstat (-1) 0 EBADF (scripted all_good)) 2 file_argv 3
           (-1, 0) w0 (mkWorld 0 [Ev (Sys_open "rec.evemu" O_RDWR)])
           (mkWorld EBADF [Ev (Sys_open "rec.evemu" O_RDWR);
                           Ev (Sys_fstat 3)]));
    first [reflexivity | lia].
Defined.

Lemma start_offset_total (env : Env) (argc : Z) (argv : list string)
    (w : World) :
  exists (off : Z) (w' : World), start_offset env argc argv w = (Some off, w').
Proof.
  unfold start_offset, printf, fprintf. destruct (argc =? 3).
  - run. unfold ret. eauto.
  - unfold ret. eauto.
Qed.

Lemma play_from_stdin_total (env : Env) (fd : Z) (w : World) :
  exists (r : Z) (w' : World), play_from_stdin env fd w = (Some r, w').
Proof.
  unfold play_from_stdin, fprintf. cbn zeta. call_step.
  destruct (negb (r =? 0)); run; unfold ret; eauto.
Qed.

(** X17. Once the target is open and [fstat] has succeeded, [play] returns
    0 on every path of both modes, whatever fails afterwards ([fdopen],
    the creation of the device, the opening of its node, the replay), and
    the last thing it does is to close the target. *)
Theorem play_returns_zero_once_target_is_examined
    (env : Env) (argc : Z) (argv : list string) (fd : Z) (st : Z * Z)
    (w w1 w2 : World) :
  2 <= argc <= 3 ->
  call env (Sys_open (arg argv 1) O_RDWR) w = (Some fd, w1) ->
  0 <= fd ->
  call env (Sys_fstat fd) w1 = (Some st, w2) ->
  fst st <> -1 ->
  exists before w' : World,
    play env argc argv w = (Some 0, w') /\
    trace w' = trace before ++ [Ev (Sys_close fd)].
Proof.
  intros Hargc Hopen Hfd Hfstat Hst.
  destruct (start_offset_total env argc argv w2) as (off & w3 & Hoff).
  rewrite (play_dispatch env argc argv fd off st w w1 w2 w3
             Hargc Hopen Hfd Hfstat Hst Hoff).
  destruct (S_ISCHR (snd st)).
  - destruct (play_from_stdin_total env fd w3) as (r & w4 & Hlive).
    step Hlive. run. unfold ret. exists w4. eexists.
    split; [reflexivity|]. assumption.
  - destruct (play_from_file_total env fd off w3) as (r & w4 & Hfile).
    step Hfile. run. unfold ret. exists w4. eexists.
    split; [reflexivity|]. assumption.
Qed.

Lemma play_returns_zero_once_target_is_examined_witness :
  exists before w' : World,
    play (with_new None (scripted all_good)) 3 file_argv w0 = (Some 0, w') /\
    trace w' = trace before ++ [Ev (Sys_close 3)].
Proof.
  apply (play_returns_zero_once_target_is_examined
           (with_new None (scripted all_good)) 3 file_argv 3 (0, S_IFREG)
           w0 (opened file_argv) (looked_at file_argv));
    first [reflexivity | lia | discriminate].
Defined.

(** ** play_from_file *)

(** X18. When [fdopen] on the recording descriptor returns null,
    [play_from_file] prints its message in the world [fdopen] left and
    returns -1; nothing else is called, in particular no device is
    created. *)
Theorem play_from_file_reports_fdopen_failure
    (env : Env) (recording_fd start_offset_us : Z) (w w1 : World) :
  call env (Fdopen recording_fd "r") w = (Some None, w1) ->
  exists (x : Z) (w' : World),
    call env (Fprintf Stderr "error: could not open file (%m)\n" []) w1
      = (Some x, w') /\
    play_from_file env recording_fd start_offset_us w = (Some (-1), w').
Proof.
  intros Hfdopen.
  destruct (call_ex env (Fprintf Stderr "error: could not open file (%m)\n" [])
              w1) as (x & w' & Hprint & _).
  exists x, w'. split; [exact Hprint|].
  unfold play_from_file, fprintf. step Hfdopen. step Hprint. reflexivity.
Qed.

Lemma play_from_file_reports_fdopen_failure_witness :
  exists (x : Z) (w' : World),
    call (scripted fdopen_fails)
         (Fprintf Stderr "error: could not open file (%m)\n" [])
         (mkWorld ENOMEM [Ev (Fdopen 3 "r")])
      = (Some x, w') /\
    play_from_file (scripted fdopen_fails) 3 0 w0 = (Some (-1), w').
Proof.
  apply (play_from_file_reports_fdopen_failure (scripted fdopen_fails) 3 0 w0).
  reflexivity.
Defined.

(** X19. When [create_device] returns null, [play_from_file] prints its
    message in the world [create_device] left, closes the recording
    stream and returns -1; it opens no node and calls no [evemu_delete]. *)
Theorem play_from_file_closes_stream_on_creation_failure
    (env : Env) (recording_fd start_offset_us : Z) (fp : Stream)
    (w w1 w2 : World) :
  call env (Fdopen recording_fd "r") w = (Some (Some fp), w1) ->
  create_device env fp w1 = (Some None, w2) ->
  exists (x y : Z) (w3 w' : World),
    call env (Fprintf Stderr "error: could not create device: %m\n" []) w2
      = (Some x, w3) /\
    call env (Fclose fp) w3 = (Some y, w') /\
    play_from_file env recording_fd start_offset_us w = (Some (-1), w').
Proof.
  intros Hfdopen Hcreate.
  destruct (call_ex env
              (Fprintf Stderr "error: could not create device: %m\n" []) w2)
    as (x & w3 & Hprint & _).
  destruct (call_ex env (Fclose fp) w3) as (y & w' & Hclose & _).
  exists x, y, w3, w'. split; [exact Hprint|]. split; [exact Hclose|].
  unfold play_from_file, fprintf. step Hfdopen. step Hcreate.
  step Hprint. step Hclose. reflexivity.
Qed.

Lemma play_from_file_closes_stream_on_creation_failure_witness :
  exists (x y : Z) (w3 w' : World),
    call (with_new None (scripted all_good))
         (Fprintf Stderr "error: could not create device: %m\n" [])
         (mkWorld ENOMEM [Ev (Fdopen 3 "r"); Ev Evemu_new])
      = (Some x, w3) /\
    call (with_new None (scripted all_good)) (Fclose (Fp 0)) w3
      = (Some y, w') /\
    play_from_file (with_new None (scripted all_good)) 3 0 w0
      = (Some (-1), w').
Proof.
  apply (play_from_file_closes_stream_on_creation_failure
           (with_new None (scripted all_good)) 3 0 (Fp 0) w0
           (mkWorld 0 [Ev (Fdopen 3 "r")]));
    reflexivity.
Defined.

(** X20. The message of [play_from_file] about a description that could
    not be read shows the error of the read: when [evemu_read] returns a
    negative result, the line with [%m] is printed with [errno] as
    [evemu_read] left it, whatever [evemu_destroy] did to [errno] in
    between. *)
Theorem play_from_file_reports_errno_of_read
    (env : Env) (recording_fd start_offset_us r : Z) (fp : Stream) (d : Dev)
    (w w1 w2 w3 w4 : World) :
  call env (Fdopen recording_fd "r") w = (Some (Some fp), w1) ->
  call env Evemu_new w1 = (Some (Some d), w2) ->
  call env (Evemu_read d fp) w2 = (Some r, w3) ->
  r < 0 ->
  call env (Evemu_destroy d) w3 = (Some tt, w4) ->
  exists (x y : Z) (w5 w' : World),
    call env (Fprintf Stderr "error: could not create device: %m\n" [])
         (mkWorld (errno w3) (trace w4)) = (Some x, w5) /\
    call env (Fclose fp) w5 = (Some y, w') /\
    play_from_file env recording_fd start_offset_us w = (Some (-1), w').
Proof.
  intros Hfdopen Hnew Hread Hr Hdestroy.
  destruct (call_ex env
              (Fprintf Stderr "error: could not create device: %m\n" [])
              (mkWorld (errno w3) (trace w4)))
    as (x & w5 & Hprint & _).
  destruct (call_ex env (Fclose fp) w5) as (y & w' & Hclose & _).
  exists x, y, w5, w'. split; [exact Hprint|]. split; [exact Hclose|].
  unfold play_from_file, create_device, fprintf.
  step Hfdopen. rewrite bind_assoc. step Hnew. rewrite bind_assoc.
  step Hread.
  replace (r <=? 0) with true by (symmetry; apply Z.leb_le; lia).
  unfold create_device_out.
  replace (r =? 0) with false by (symmetry; apply Z.eqb_neq; lia).
  cbn [negb]. rewrite bind_assoc, bind_get_errno, bind_assoc.
  step Hdestroy. rewrite bind_assoc, bind_set_errno, bind_ret.
  cbn [trace]. step Hprint. step Hclose. reflexivity.
Qed.

Lemma play_from_file_reports_errno_of_read_witness :
  exists (x y : Z) (w5 w' : World),
    call (with_read (-5) EINVAL (scripted all_good))
         (Fprintf Stderr "error: could not create device: %m\n" [])
         (mkWorld
            (errno (mkWorld EINVAL [Ev (Fdopen 3 "r"); Ev Evemu_new;
                                    Ev (Evemu_read 1%nat (Fp 0))]))
            (trace (mkWorld EBADF [Ev (Fdopen 3 "r"); Ev Evemu_new;
                                   Ev (Evemu_read 1%nat (Fp 0));
                                   Ev (Evemu_destroy 1%nat)])))
      = (Some x, w5) /\
    call (with_read (-5) EINVAL (scripted all_good)) (Fclose (Fp 0)) w5
      = (Some y, w') /\
    play_from_file (with_read (-5) EINVAL (scripted all_good)) 3 0 w0
      = (Some (-1), w').
Proof.
  apply (play_from_file_reports_errno_of_read
           (with_read (-5) EINVAL (scripted all_good)) 3 0 (-5) (Fp 0) 1%nat
           w0 (mkWorld 0 [Ev (Fdopen 3 "r")])
           (mkWorld 0 [Ev (Fdopen 3 "r"); Ev Evemu_new]));
    first [reflexivity | lia].
Defined.

(** ** Mode test and synthetic name *)

Lemma land_below_mask (perms : Z) :
  0 <= perms < 4096 -> Z.land perms S_IFMT = 0.
Proof.
  intros [Hlo Hhi]. apply Z.bits_inj'. intros n Hn.
  rewrite Z.land_spec, Z.bits_0.
  destruct (Z.ltb_spec n 12) as [Hlt | Hge].
  - change S_IFMT with (Z.shiftl 15 12).
    rewrite Z.shiftl_spec_low by exact Hlt. apply andb_false_r.
  - destruct (Z.eq_dec perms 0) as [-> | Hne].
    + rewrite Z.bits_0. reflexivity.
    + rewrite (Z.bits_above_log2 perms n); [reflexivity | exact Hlo |].
      apply Z.lt_le_trans with 12; [|exact Hge].
      apply Z.log2_lt_pow2; [lia | exact Hhi].
Qed.

(** The mode test looks at the file type only: whatever the permission
    bits, a character device passes [S_ISCHR], and a regular file, a
    directory and a block device (whose type shares a bit with [S_IFCHR])
    do not. *)
Lemma S_ISCHR_ignores_permission_bits (perms : Z) :
  0 <= perms < 4096 ->
  S_ISCHR (Z.lor S_IFCHR perms) = true /\
  S_ISCHR (Z.lor S_IFREG perms) = false /\
  S_ISCHR (Z.lor S_IFDIR perms) = false /\
  S_ISCHR (Z.lor S_IFBLK perms) = false.
Proof.
  intros Hperms. unfold S_ISCHR.
  rewrite !Z.land_lor_distr_l, (land_below_mask perms Hperms).
  repeat split; reflexivity.
Qed.

(** X21. The mode [play] runs depends on the file type that [fstat]
    reports and not on the permission bits: once the target is open and
    [fstat] has succeeded with mode [t | perms], [play] goes on with
    [play_from_stdin] when [t] is [S_IFCHR], and with [play_from_file]
    when [t] is [S_IFREG] or [S_IFBLK], a block device being no character
    device although its type shares a bit with [S_IFCHR]. *)
Theorem play_mode_ignores_permission_bits
    (env : Env) (argc : Z) (argv : list string) (fd off r t perms : Z)
    (w w1 w2 w3 : World) :
  2 <= argc <= 3 ->
  call env (Sys_open (arg argv 1) O_RDWR) w = (Some fd, w1) ->
  0 <= fd ->
  call env (Sys_fstat fd) w1 = (Some (r, Z.lor t perms), w2) ->
  r <> -1 ->
  start_offset env argc argv w2 = (Some off, w3) ->
  0 <= perms < 4096 ->
  t = S_IFCHR \/ t = S_IFREG \/ t = S_IFBLK ->
  play env argc argv w
    = ((if t =? S_IFCHR then play_from_stdin env fd
        else play_from_file env fd off) ;;;
       call env (Sys_close fd) ;;; ret 0) w3.
Proof.
  intros Hargc Hopen Hfd Hfstat Hr Hoff Hperms Ht.
  rewrite (play_dispatch env argc argv fd off (r, Z.lor t perms) w w1 w2 w3
             Hargc Hopen Hfd Hfstat Hr Hoff).
  cbn [snd].
  destruct (S_ISCHR_ignores_permission_bits perms Hperms)
    as (Hchr & Hreg & _ & Hblk).
  destruct Ht as [-> | [-> | ->]].
  - rewrite Hchr. reflexivity.
  - rewrite Hreg. reflexivity.
  - rewrite Hblk. reflexivity.
Qed.

Lemma play_mode_ignores_permission_bits_witness :
  play (with_fstat 0 (Z.lor S_IFBLK 432) 0 (scripted all_good)) 3 file_argv w0
    = ((if S_IFBLK =? S_IFCHR
        then play_from_stdin
               (with_fstat 0 (Z.lor S_IFBLK 432) 0 (scripted all_good)) 3
        else play_from_file
               (with_fstat 0 (Z.lor S_IFBLK 432) 0 (scripted all_good)) 3
               2000) ;;;
       call (with_fstat 0 (Z.lor S_IFBLK 432) 0 (scripted all_good))
            (Sys_close 3) ;;; ret 0) (at_mode_test file_argv).
Proof.
  apply (play_mode_ignores_permission_bits
           (with_fstat 0 (Z.lor S_IFBLK 432) 0 (scripted all_good))
           3 file_argv 3 2000 0 S_IFBLK 432
           w0 (opened file_argv) (looked_at file_argv)
           (at_mode_test file_argv)).
  - lia.
  - reflexivity.
  - lia.
  - reflexivity.
  - discriminate.
  - reflexivity.
  - lia.
  - right. right. reflexivity.
Defined.

Lemma little_double_digits (d : Decimal.uint) :
  (Decimal.nb_digits (Decimal.Little.double d) <= S (Decimal.nb_digits d))%nat /\
  (Decimal.nb_digits (Decimal.Little.succ_double d)
   <= S (Decimal.nb_digits d))%nat.
Proof.
  induction d as [|d [IH1 IH2]|d [IH1 IH2]|d [IH1 IH2]|d [IH1 IH2]
                  |d [IH1 IH2]|d [IH1 IH2]|d [IH1 IH2]|d [IH1 IH2]
                  |d [IH1 IH2]|d [IH1 IH2]];
    cbn [Decimal.Little.double Decimal.Little.succ_double Decimal.nb_digits];
    split; lia.
Qed.

Lemma to_little_uint_digits (p : positive) :
  (Decimal.nb_digits (Pos.to_little_uint p) <= Pos.size_nat p)%nat.
Proof.
  induction p as [p IH|p IH|]; cbn [Pos.to_little_uint Pos.size_nat].
  - pose proof (proj2 (little_double_digits (Pos.to_little_uint p))). lia.
  - pose proof (proj1 (little_double_digits (Pos.to_little_uint p))). lia.
  - cbn. lia.
Qed.

Lemma size_nat_below_pow2 (n : nat) :
  forall p : positive, Z.pos p < 2 ^ Z.of_nat n -> (Pos.size_nat p <= n)%nat.
Proof.
  induction n as [|n IH]; intros p Hp.
  - cbn in Hp. lia.
  - rewrite Nat2Z.inj_succ, Z.pow_succ_r in Hp by lia.
    destruct p as [p|p|]; cbn [Pos.size_nat].
    + apply le_n_S, IH. lia.
    + apply le_n_S, IH. lia.
    + lia.
Qed.

Lemma string_of_uint_length (d : Decimal.uint) :
  String.length (NilEmpty.string_of_uint d) = Decimal.nb_digits d.
Proof.
  induction d; cbn [NilEmpty.string_of_uint String.length Decimal.nb_digits];
    congruence.
Qed.

Lemma format_d_pos_length (p : positive) :
  Z.pos p <= 2 ^ 31 ->
  (String.length (NilZero.string_of_uint (Pos.to_uint p)) <= 32)%nat.
Proof.
  intros Hp.
  assert (Hd : (Decimal.nb_digits (Pos.to_uint p) <= 32)%nat).
  { unfold Pos.to_uint. rewrite DecimalFacts.nb_digits_rev.
    apply Nat.le_trans with (Pos.size_nat p); [apply to_little_uint_digits|].
    apply (size_nat_below_pow2 32). change (2 ^ Z.of_nat 32) with (2 * 2 ^ 31).
    lia. }
  unfold NilZero.string_of_uint.
  destruct (Pos.to_uint p) eqn:E;
    try (rewrite <- E, string_of_uint_length, E; exact Hd).
  cbn. lia.
Qed.

(** X22. The synthetic name fits its buffer: for every process id in the
    range of [int], ["evemu-<pid>"] with its terminating zero takes fewer
    than the 64 bytes of [char name[64]]. *)
Theorem sprintf_evemu_d_fits_buffer (pid : Z) :
  INT_MIN <= pid <= INT_MAX ->
  (String.length (sprintf_evemu_d pid) + 1 < 64)%nat.
Proof.
  unfold INT_MIN, INT_MAX. intros [Hlo Hhi].
  unfold sprintf_evemu_d, format_d.
  cbn [String.append String.length].
  destruct pid as [|p|p]; cbn [Z.to_int NilZero.string_of_int].
  - cbn. lia.
  - pose proof (format_d_pos_length p). lia.
  - cbn [String.length]. pose proof (format_d_pos_length p). lia.
Qed.

Lemma sprintf_evemu_d_fits_buffer_witness :
  (String.length (sprintf_evemu_d 4194304) + 1 < 64)%nat.
Proof.
  apply (sprintf_evemu_d_fits_buffer 4194304).
  unfold INT_MIN, INT_MAX. lia.
Defined.

Lemma open_evemu_device_negative_is_minus_one
    (env : Env) (dev : Dev) (fd : Z) (w w' : World) :
  open_evemu_device env dev w = (Some fd, w') -> fd < 0 -> fd = -1.
Proof.
  unfold open_evemu_device, fprintf. call_step. destruct r as [node|].
  - call_step. destruct (r <? 0) eqn:Hfd.
    + run; unfold ret; intros H _; inversion H; reflexivity.
    + run. unfold ret. intros H Hneg. inversion H; subst.
      apply Z.ltb_ge in Hfd. lia.
  - run. unfold ret. intros H _. inversion H. reflexivity.
Qed.

(** X23. In file mode a node that cannot be opened is not reported in the
    result: after a successful [create_device], a failing
    [open_evemu_device] sends [play_from_file] to its teardown, where it
    deletes the device, closes the stream, calls [close] on the invalid
    descriptor -1, and returns 0; no replay is attempted. *)
Theorem play_from_file_returns_zero_on_node_failure
    (env : Env) (recording_fd start_offset_us fd : Z) (fp : Stream) (dev : Dev)
    (w w1 w2 w3 : World) :
  call env (Fdopen recording_fd "r") w = (Some (Some fp), w1) ->
  create_device env fp w1 = (Some (Some dev), w2) ->
  open_evemu_device env dev w2 = (Some fd, w3) ->
  fd < 0 ->
  exists w' : World,
    play_from_file env recording_fd start_offset_us w = (Some 0, w') /\
    trace w' = trace w3 ++ [Ev (Evemu_delete dev); Ev (Fclose fp);
                            Ev (Sys_close (-1))].
Proof.
  intros Hfdopen Hcreate Hopen Hfd.
  pose proof (open_evemu_device_negative_is_minus_one _ _ _ _ _ Hopen Hfd)
    as ->.
  unfold play_from_file, play_from_file_out. step Hfdopen. step Hcreate.
  step Hopen. cbn [Z.ltb Z.compare].
  run. unfold ret. eexists. split; [reflexivity|]. logs. reflexivity.
Qed.

Lemma play_from_file_returns_zero_on_node_failure_witness :
  exists w' : World,
    play_from_file
      (with_open "/dev/input/event7" (-13) 13 (scripted all_good)) 3 0 w0
      = (Some 0, w') /\
    trace w'
      = trace (snd (open_evemu_device
                      (with_open "/dev/input/event7" (-13) 13
                         (scripted all_good)) 1%nat
                      (snd (create_device
                              (with_open "/dev/input/event7" (-13) 13
                                 (scripted all_good)) (Fp 0)
                              (mkWorld 0 [Ev (Fdopen 3 "r")])))))
          ++ [Ev (Evemu_delete 1%nat); Ev (Fclose (Fp 0));
              Ev (Sys_close (-1))].
Proof.
  apply (play_from_file_returns_zero_on_node_failure
           (with_open "/dev/input/event7" (-13) 13 (scripted all_good))
           3 0 (-1) (Fp 0) 1%nat w0 (mkWorld 0 [Ev (Fdopen 3 "r")])
           (snd (create_device
                   (with_open "/dev/input/event7" (-13) 13
                      (scripted all_good)) (Fp 0)
                   (mkWorld 0 [Ev (Fdopen 3 "r")]))));
    first [reflexivity | lia].
Defined.
